(** * Artifact end-points of the task queue ([src/artifacts.js])

    A shallow embedding of the five artifact handlers ([createArtifact],
    [getArtifact], [getLatestArtifact], [listArtifacts],
    [listLatestArtifacts]) and of [replyWithArtifact], followed by the
    properties of the artifact lifecycle they implement.

    Conventions of the embedding:
    - a JavaScript string is a [string] holding its UTF-8 bytes;
    - a value that may be [undefined] is an [option], [None] being [undefined];
    - a number produced by [parseInt] is an [option Z], [None] being [NaN];
    - a date is its [getTime()] value, a [Z] counting milliseconds;
    - a JSON object with string members ([artifact.details], the request
      headers) is a [gmap string string];
    - [await] is sequential composition: one handler runs at a time. *)

From Stdlib Require Import ZArith String Ascii List Bool Lia DecimalString.
From stdpp Require Import base decidable option gmap strings list fin_maps.
Import ListNotations.

Open Scope string_scope.
Open Scope Z_scope.

(** ** JavaScript primitives used by the handlers *)

(** Truthiness of a possibly undefined string: [undefined], [null] and the
    empty string are falsy. *)
Definition truthy (s : option string) : bool :=
  match s with
  | None => false
  | Some s => negb (String.eqb s "")
  end.

(** [a || b] on strings. *)
Definition or_else (a : option string) (b : string) : string :=
  match a with
  | Some s => if String.eqb s "" then b else s
  | None => b
  end.

(** [String(n)] for the result of [parseInt]: decimal digits, with a sign
    for negative numbers, and ["NaN"]. *)
Definition Number_toString (n : option Z) : string :=
  match n with
  | None => "NaN"
  | Some z => NilZero.string_of_int (Z.to_int z)
  end.

(** [Array.prototype.join]. *)
Definition join (sep : string) (parts : list string) : string :=
  String.concat sep parts.

(** [/^public\//.test(name)]. *)
Definition isPublicName (name : string) : bool := String.prefix "public/" name.

Definition lower_ascii (c : ascii) : ascii :=
  let n := N_of_ascii c in
  if ((65 <=? n) && (n <=? 90))%N then ascii_of_N (n + 32) else c.

(** [String.prototype.toLowerCase], on the ASCII letters.  The handlers only
    compare the result with ["true"] and ["1"], and no character outside
    ASCII lowers to one of [t], [r], [u], [e], [1]. *)
Fixpoint toLowerCase (s : string) : string :=
  match s with
  | EmptyString => EmptyString
  | String c r => String (lower_ascii c) (toLowerCase r)
  end.

Definition hex_digit (n : N) : ascii :=
  if (n <? 10)%N then ascii_of_N (48 + n) else ascii_of_N (55 + n).

(** The characters [encodeURIComponent] leaves alone:
    [A-Z a-z 0-9 - _ . ! ~ * ' ( )]. *)
Definition uri_unreserved (c : ascii) : bool :=
  let n := N_of_ascii c in
  (((65 <=? n) && (n <=? 90)) || ((97 <=? n) && (n <=? 122)) ||
   ((48 <=? n) && (n <=? 57)) ||
   (n =? 45) || (n =? 95) || (n =? 46) || (n =? 33) || (n =? 126) ||
   (n =? 42) || (n =? 39) || (n =? 40) || (n =? 41))%N.

Definition percent_encode (c : ascii) : string :=
  let n := N_of_ascii c in
  String "%" (String (hex_digit (n / 16)) (String (hex_digit (n mod 16)) "")).

(** [encodeURIComponent]: every byte of the UTF-8 form that is not
    unreserved becomes [%XX] with upper-case hexadecimal digits. *)
Fixpoint encodeURIComponent (s : string) : string :=
  match s with
  | EmptyString => EmptyString
  | String c r =>
      (if uri_unreserved c then String c "" else percent_encode c)
        +:+ encodeURIComponent r
  end.

(** The replacement [url.format] applies to its [pathname]:
    [pathname.replace(/[?#]/g, encodeURIComponent)]. *)
Fixpoint escape_pathname (s : string) : string :=
  match s with
  | EmptyString => EmptyString
  | String c r =>
      (if (Ascii.eqb c "?" || Ascii.eqb c "#")%bool then percent_encode c
       else String c "")
        +:+ escape_pathname r
  end.

(** Node's legacy [url.format] applied to a plain object
    [{protocol: 'https:', host, pathname}], the only shape the handlers
    pass.  ['https:'] is a slashed protocol, so a truthy [host] is written
    after [//] and the path is made absolute; a falsy [host] is dropped. *)
Definition urllib_format_https (host pathname : string) : string :=
  let protocol := "https:" in
  if String.eqb host "" then
    protocol +:+ escape_pathname pathname
  else
    let pathname :=
      match pathname with
      | EmptyString => pathname
      | String c _ => if Ascii.eqb c "/" then pathname else "/" +:+ pathname
      end in
    protocol +:+ "//" +:+ host +:+ escape_pathname pathname.

(** ** Data model *)

(** One entry of [task.runs]. *)
Record Run := {
  state       : string;
  workerGroup : option string;
  workerId    : option string;
  resolved    : option Z;
}.

(** The Task entity, as far as the artifact handlers read it.
    [Task.status] is the structure [task.status()] returns, kept opaque. *)
Module Task.
Record t := {
  expires : Z;
  routes  : list string;
  runs    : list Run;
  status  : string;
}.
End Task.

(** The Artifact entity. *)
Module Artifact.
Record t := {
  taskId      : string;
  runId       : option Z;
  name        : string;
  storageType : string;
  contentType : string;
  details     : gmap string string;
  expires     : Z;
}.
End Artifact.

(** Modelled from the spec: [Artifact.prototype.json] is defined with the
    entity, outside this file; the list response "contains storageType,
    name, expires, contentType, and public (reference) url or nothing". *)
Record ArtifactJson := {
  json_storageType : string;
  json_name        : string;
  json_expires     : Z;
  json_contentType : string;
  json_url         : option string;
}.

Definition json (a : Artifact.t) : ArtifactJson :=
  {| json_storageType := a.(Artifact.storageType);
     json_name        := a.(Artifact.name);
     json_expires     := a.(Artifact.expires);
     json_contentType := a.(Artifact.contentType);
     json_url         := if decide (a.(Artifact.storageType) = "reference")
                         then a.(Artifact.details) !! "url" else None |}.

(** [task.runs[runId]]: a property lookup by a number; [undefined] outside
    the array and for [NaN]. *)
Definition runs_at (rs : list Run) (runId : option Z) : option Run :=
  match runId with
  | Some z => if 0 <=? z then rs !! Z.to_nat z else None
  | None => None
  end.

(** ** Requests, responses and collaborators *)

(** The body of a [createArtifact] request.  The schema
    [post-artifact-request.json] makes [url], [message] and [reason] required
    for the storage type that reads them, so they are plain strings. *)
Module Input.
Record t := {
  storageType : string;
  contentType : option string;
  expires     : Z;
  url         : string;
  message     : string;
  reason      : string;
}.
End Input.

(** The parameters a handler hands to [req.satisfies]. *)
Inductive AuthParams :=
| CreateParams (taskId : string) (runId : option Z)
               (workerGroup workerId : option string) (name : string)
| GetParams (name : string).

(** The request object [req].  [params_runId] is
    [parseInt(req.params.runId, 10)]; [query_limit] is the number the digits
    of [req.query.limit] denote. *)
Record Request := {
  params_taskId           : string;
  params_runId            : option Z;
  params_name             : string;
  body                    : Input.t;
  headers                 : gmap string string;
  query_continuationToken : option string;
  query_limit             : option Z;
  satisfies               : AuthParams -> bool;
}.

(** The third argument of [res.reportError], one shape per call site. *)
Inductive ErrorDetails :=
| NoDetails
| ExpiresDetails (taskExpires expires : Z)
| StatusDetails (status : string)
| TaskIdDetails (taskId : string)
| RunDetails (taskId : string) (runId : option Z) (status : string)
| OriginalArtifact (storageType contentType : string) (expires : Z).

(** The argument of [res.reply]. *)
Inductive ReplyBody :=
| PutReply (storageType contentType : string) (expires : Z) (putUrl : string)
| TypeReply (storageType : string)
| ListReply (artifacts : list ArtifactJson) (continuationToken : option string).

(** What a handler writes to [res].  [authRejected] is the response
    [req.satisfies] has written itself when it returns [false]; [noResponse]
    is a handler returning without writing anything. *)
Inductive Response :=
| reportError (kind message : string) (details : ErrorDetails)
| reply (body : ReplyBody)
| redirect (code : Z) (location : option string)
| status_json (code : Z) (reason message : option string)
| authRejected
| noResponse.

Inductive JsError :=
| Error (message : string)
| TypeError (message : string)
| ReferenceError (message : string)
| AssertionError (message : string).

(** A handler either returns after writing a response or throws. *)
Inductive Outcome :=
| Return (r : Response)
| Throw (e : JsError).

(** An S3 bucket wrapper: its name and its URL-building capabilities.
    [createPutUrl prefix contentType expires], [createGetUrl prefix
    forceS3] (an omitted second argument is [false]) and
    [createSignedGetUrl prefix expires] are defined outside this file. *)
Module Bucket.
Record t := {
  bucket             : string;
  createPutUrl       : option string -> string -> Z -> string;
  createGetUrl       : option string -> bool -> string;
  createSignedGetUrl : option string -> Z -> string;
}.
End Bucket.

(** The Azure blob container wrapper. *)
Module BlobStore.
Record t := {
  container          : string;
  generateWriteSAS   : option string -> Z -> string;
  createSignedGetUrl : option string -> Z -> string;
}.
End BlobStore.

(** One page of [Artifact.query]. *)
Record Page := {
  entries      : list Artifact.t;
  continuation : option string;
}.

Abbreviation ArtifactKey := (string * option Z * string)%type.

(** The handler context [this]: configuration and collaborators without
    state of their own.  [Artifact_query table taskId runId continuation
    limit] is the paged scan of the artifact table. *)
Record Context := {
  publicBucket   : Bucket.t;
  privateBucket  : Bucket.t;
  blobStore      : BlobStore.t;
  artifactRegion : string;
  cloudMirrorHost : string;
  regionResolver : Request -> option string;
  Artifact_query : gmap ArtifactKey Artifact.t -> string -> option Z ->
                   option string -> Z -> Page;
}.

(** A message handed to [publisher.artifactCreated], with its routes. *)
Record ArtifactCreated := {
  msg_status      : string;
  msg_artifact    : ArtifactJson;
  msg_workerGroup : option string;
  msg_workerId    : option string;
  msg_runId       : option Z;
  msg_routes      : list string;
}.

(** An error handed to [monitor.reportError], with the [artifact] property
    the handler attaches. *)
Record MonitorReport := {
  report_message  : string;
  report_artifact : ArtifactJson;
}.

(** The state the handlers read and write: the Task table (read only
    here), the Artifact table, and the logs of the publisher and of the
    monitor.

    Modelled from the spec: the Artifact table is the entity store of §4.4,
    defined outside this file: [create] is a conditional insert keyed by
    [(taskId, runId, name)] that fails with [EntityAlreadyExists] on a
    present key, [load] returns the record or none, [modify] rewrites the
    record under its key. *)
Record State := {
  tasks     : gmap string Task.t;
  artifacts : gmap ArtifactKey Artifact.t;
  published : list ArtifactCreated;
  reported  : list MonitorReport;
}.

Definition set_artifacts (st : State) (m : gmap ArtifactKey Artifact.t) : State :=
  {| tasks := st.(tasks); artifacts := m;
     published := st.(published); reported := st.(reported) |}.

Definition publish (st : State) (m : ArtifactCreated) : State :=
  {| tasks := st.(tasks); artifacts := st.(artifacts);
     published := st.(published) ++ [m]; reported := st.(reported) |}.

Definition report (st : State) (r : MonitorReport) : State :=
  {| tasks := st.(tasks); artifacts := st.(artifacts);
     published := st.(published); reported := st.(reported) ++ [r] |}.

(** The three readings of the clock in [createArtifact]: [new Date()] of
    the expiration check, [Date.now()] of the run check, [new Date()] of
    the reply. *)
Record Clock := {
  t_validate : Z;
  t_runcheck : Z;
  t_reply    : Z;
}.

Definition minutes (n : Z) : Z := n * 60 * 1000.

Definition nl : string := String (ascii_of_N 10) EmptyString.

(** ** [createArtifact] *)

Definition expires_after_task_message : string :=
  "Artifact expires ({{expires}}) after the task expiration " +:+
  "{{taskExpires}} (task.expires < expires) - this is now allowed, " +:+
  "artifacts must expire before the task they belong to".

Definition run_resolved_message : string :=
  "Artifacts cannot be created for a task after it is " +:+
  "resolved, unless it is resolved 'exception', and even " +:+
  "in this case only up to 25 min past resolution." +:+
  "This to ensure that artifacts have been uploaded before " +:+
  "a task is 'completed' and output is consumed by a " +:+
  "dependent task" +:+ nl +:+ nl +:+ "Task status: {{status}}".

Definition exists_type_message : string :=
  "Artifact already exists, with different type or later expiration" +:+
  nl +:+ nl +:+ "Existing artifact information: {{originalArtifact}}".

Definition exists_details_message : string :=
  "Artifact already exists, with different contentType or error message" +:+
  nl +:+ nl +:+ "Existing artifact information: {{originalArtifact}}".

(** Lines 153-161: may an artifact still be uploaded for [run]?
    [new Date(undefined).getTime()] is [NaN], and [NaN > x] is false. *)
Definition uploadAllowed (now : Z) (run : Run) : bool :=
  if decide (run.(state) = "running") then true
  else if decide (run.(state) = "exception") then
    match run.(resolved) with
    | Some r => now - 25 * 60 * 1000 <? r
    | None => false
    end
  else false.

(** Lines 176-204: the [details] of the new artifact; [None] stands for
    the [throw] of the [default] case. *)
Definition constructDetails (ctx : Context) (taskId : string)
    (runId : option Z) (name : string) (input : Input.t)
  : option (gmap string string) :=
  let isPublic := isPublicName name in
  let storageType := input.(Input.storageType) in
  if decide (storageType = "s3") then
    Some (<["prefix" := join "/" [taskId; Number_toString runId; name]]>
          (<["bucket" := if isPublic then ctx.(publicBucket).(Bucket.bucket)
                         else ctx.(privateBucket).(Bucket.bucket)]> ∅))
  else if decide (storageType = "azure") then
    Some (<["path" := join "/" [taskId; Number_toString runId; name]]>
          (<["container" := ctx.(blobStore).(BlobStore.container)]> ∅))
  else if decide (storageType = "reference") then
    Some (<["url" := input.(Input.url)]> ∅)
  else if decide (storageType = "error") then
    Some (<["reason" := input.(Input.reason)]> (<["message" := input.(Input.message)]> ∅))
  else None.

(** Lines 277-283: the bucket wrapper the put-URL is asked from. *)
Definition selectBucket (ctx : Context) (artifact : Artifact.t) : option Bucket.t :=
  let bucket0 : option Bucket.t := None in
  let bucket1 :=
    if decide (artifact.(Artifact.details) !! "bucket" = Some ctx.(publicBucket).(Bucket.bucket))
    then Some ctx.(publicBucket) else bucket0 in
  if decide (artifact.(Artifact.details) !! "bucket" = Some ctx.(privateBucket).(Bucket.bucket))
  then Some ctx.(privateBucket) else bucket1.

(** Lines 273-319: the reply, by the storage type of the stored artifact.
    Calling [createPutUrl] on [null] throws a [TypeError]. *)
Definition replyCreated (ctx : Context) (now : Z) (requested : string)
    (artifact : Artifact.t) : Outcome :=
  if decide (artifact.(Artifact.storageType) = "s3") then
    let expiry := now + 30 * 60 * 1000 in
    match selectBucket ctx artifact with
    | None => Throw (TypeError "Cannot read property 'createPutUrl' of null")
    | Some b =>
        let putUrl := b.(Bucket.createPutUrl) (artifact.(Artifact.details) !! "prefix")
                        artifact.(Artifact.contentType) (30 * 60 + 10) in
        Return (reply (PutReply "s3" artifact.(Artifact.contentType) expiry putUrl))
    end
  else if decide (artifact.(Artifact.storageType) = "azure") then
    let expiry := now + 30 * 60 * 1000 in
    let putUrl := ctx.(blobStore).(BlobStore.generateWriteSAS)
                    (artifact.(Artifact.details) !! "path") expiry in
    Return (reply (PutReply "azure" artifact.(Artifact.contentType) expiry putUrl))
  else if decide (artifact.(Artifact.storageType) = "reference"
                  ∨ artifact.(Artifact.storageType) = "error") then
    Return (reply (TypeReply requested))
  else Throw (Error ("Unknown storageType: " +:+ artifact.(Artifact.storageType))).

(** Lines 265-271: the message about the creation of [artifact], with the
    routes it is published to. *)
Definition creationMessage (task : Task.t) (run : Run) (runId : option Z)
    (artifact : Artifact.t) : ArtifactCreated :=
  {| msg_status := task.(Task.status); msg_artifact := json artifact;
     msg_workerGroup := run.(workerGroup); msg_workerId := run.(workerId);
     msg_runId := runId; msg_routes := task.(Task.routes) |}.

(** Lines 264-319: publish the creation, then reply. *)
Definition publishAndReply (ctx : Context) (clk : Clock) (task : Task.t)
    (run : Run) (runId : option Z) (requested : string)
    (artifact : Artifact.t) (st : State) : Outcome * State :=
  let st := publish st (creationMessage task run runId artifact) in
  (replyCreated ctx clk.(t_reply) requested artifact, st).

(** Lines 258-261: the entity after
    [artifact.modify(a => { a.expires = expires; a.details = details })]. *)
Definition modified (a : Artifact.t) (expires : Z)
    (details : gmap string string) : Artifact.t :=
  {| Artifact.taskId := a.(Artifact.taskId);
     Artifact.runId := a.(Artifact.runId);
     Artifact.name := a.(Artifact.name);
     Artifact.storageType := a.(Artifact.storageType);
     Artifact.contentType := a.(Artifact.contentType);
     Artifact.details := details; Artifact.expires := expires |}.

(** Lines 175-319: construct the details, insert or reconcile, publish and
    reply. *)
Definition storeArtifact (ctx : Context) (clk : Clock) (req : Request)
    (task : Task.t) (run : Run) (st : State) : Outcome * State :=
  let taskId      := req.(params_taskId) in
  let runId       := req.(params_runId) in
  let name        := req.(params_name) in
  let input       := req.(body) in
  let storageType := input.(Input.storageType) in
  let contentType := or_else input.(Input.contentType) "application/json" in
  let expires     := input.(Input.expires) in
  (* Construct details for different storage types *)
  match constructDetails ctx taskId runId name input with
  | None => (Throw (Error ("Unknown storageType: " +:+ storageType)), st)
  | Some details =>
  match st.(artifacts) !! (taskId, runId, name) with
  | None =>
      (* Artifact.create succeeded *)
      let artifact :=
        {| Artifact.taskId := taskId; Artifact.runId := runId;
           Artifact.name := name;
           Artifact.storageType := storageType;
           Artifact.contentType := contentType;
           Artifact.details := details; Artifact.expires := expires |} in
      publishAndReply ctx clk task run runId storageType artifact
        (set_artifacts st (<[(taskId, runId, name) := artifact]> st.(artifacts)))
  | Some artifact =>
      (* EntityAlreadyExists: load the existing Artifact entity *)
      if decide (artifact.(Artifact.storageType) ≠ storageType
                 ∨ artifact.(Artifact.contentType) ≠ contentType
                 ∨ artifact.(Artifact.expires) > expires) then
        (Return (reportError "RequestConflict" exists_type_message
                   (OriginalArtifact artifact.(Artifact.storageType)
                      artifact.(Artifact.contentType)
                      artifact.(Artifact.expires))), st)
      else if decide (storageType ≠ "reference"
                      ∧ artifact.(Artifact.details) ≠ details) then
        (Return (reportError "RequestConflict" exists_details_message
                   (OriginalArtifact artifact.(Artifact.storageType)
                      artifact.(Artifact.contentType)
                      artifact.(Artifact.expires))), st)
      else
        (* Update expiration and detail, which may have been modified *)
        let artifact := modified artifact expires details in
        publishAndReply ctx clk task run runId storageType artifact
          (set_artifacts st (<[(taskId, runId, name) := artifact]> st.(artifacts)))
  end
  end.

(** The handler of [POST /task/:taskId/runs/:runId/artifacts/:name]:
    lines 89-173, then [storeArtifact]. *)
Definition createArtifact (ctx : Context) (clk : Clock) (req : Request)
    (st : State) : Outcome * State :=
  let taskId      := req.(params_taskId) in
  let runId       := req.(params_runId) in
  let name        := req.(params_name) in
  let input       := req.(body) in
  let expires     := input.(Input.expires) in
  (* Validate expires it is in the future;
     past.setMinutes(past.getMinutes() - 15) moves the date 15 minutes back *)
  let past := clk.(t_validate) - 15 * 60 * 1000 in
  if expires <? past then
    (Return (reportError "InputError" "Expires must be in the future" NoDetails), st)
  else
  (* Load Task entity *)
  match st.(tasks) !! taskId with
  | None => (Return (reportError "InputError" "Task not found" NoDetails), st)
  | Some task =>
  (* Check presence of the run *)
  match runs_at task.(Task.runs) runId with
  | None => (Return (reportError "InputError" "Run not found" NoDetails), st)
  | Some run =>
  let workerGroup := run.(workerGroup) in
  let workerId    := run.(workerId) in
  (* Authenticate request by providing parameters *)
  if negb (req.(satisfies) (CreateParams taskId runId workerGroup workerId name))
  then (Return authRejected, st)
  else
  (* Validate expires <= task.expires *)
  if task.(Task.expires) <? expires then
    (Return (reportError "InputError" expires_after_task_message
               (ExpiresDetails task.(Task.expires) expires)), st)
  else
  (* Ensure that the run is running *)
  if negb (uploadAllowed clk.(t_runcheck) run) then
    (Return (reportError "RequestConflict" run_resolved_message
               (StatusDetails task.(Task.status))), st)
  else storeArtifact ctx clk req task run st
  end
  end.

(** ** [replyWithArtifact] and the read end-points *)

(** Lines 342-376: the URL an S3 artifact is served from; [None] is the
    [null] the variable starts with. *)
Definition s3Url (ctx : Context) (req : Request) (artifact : Artifact.t)
  : option string :=
  let region := ctx.(regionResolver) req in
  let prefix := artifact.(Artifact.details) !! "prefix" in
  let bucket := artifact.(Artifact.details) !! "bucket" in
  if decide (bucket = Some ctx.(publicBucket).(Bucket.bucket)) then
    let skipCacheHeader :=
      toLowerCase (or_else (req.(headers) !! "x-taskcluster-skip-cache") "") in
    if negb (truthy region) then
      Some (ctx.(publicBucket).(Bucket.createGetUrl) prefix false)
    else if decide (skipCacheHeader = "true" ∨ skipCacheHeader = "1") then
      (* Skip cache and go to cloud-front *)
      Some (ctx.(publicBucket).(Bucket.createGetUrl) prefix false)
    else if decide (Some ctx.(artifactRegion) = region) then
      Some (ctx.(publicBucket).(Bucket.createGetUrl) prefix true)
    else
      let canonicalArtifactUrl := ctx.(publicBucket).(Bucket.createGetUrl) prefix true in
      let cloudMirrorPath :=
        join "/" ["v1"; "redirect"; "s3"; default "" region;
                  encodeURIComponent canonicalArtifactUrl] in
      Some (urllib_format_https ctx.(cloudMirrorHost) cloudMirrorPath)
  else if decide (bucket = Some ctx.(privateBucket).(Bucket.bucket)) then
    Some (ctx.(privateBucket).(Bucket.createSignedGetUrl) prefix (30 * 60))
  else None.

(** [x || null] on a possibly undefined string. *)
Definition or_null (s : option string) : option string :=
  if truthy s then s else None.

(** String concatenation with a possibly undefined operand. *)
Definition String_of (s : option string) : string := default "undefined" s.

(** Lines 323-416.  The last statements name [artifacts], which no scope
    binds: evaluating [artifacts.storageType] throws a [ReferenceError]
    before the error object is built. *)
Definition replyWithArtifact (ctx : Context) (now : Z) (taskId : string)
    (runId : option Z) (name : string) (req : Request) (st : State)
  : Outcome * State :=
  (* Load artifact meta-data from table storage *)
  match st.(artifacts) !! (taskId, runId, name) with
  | None =>
      (Return (reportError "ResourceNotFound" "Artifact not found" NoDetails), st)
  | Some artifact =>
  (* Handle S3 artifacts *)
  if decide (artifact.(Artifact.storageType) = "s3") then
    let url := s3Url ctx req artifact in
    if truthy url then (Return (redirect 303 url), st)
    else (Throw (AssertionError "Url should have been constructed!"), st)
  (* Handle azure artifacts *)
  else if decide (artifact.(Artifact.storageType) = "azure") then
    let st :=
      if decide (artifact.(Artifact.details) !! "container"
                 ≠ Some ctx.(blobStore).(BlobStore.container)) then
        report st
          {| report_message :=
               "Unknown container: " +:+
               String_of (artifact.(Artifact.details) !! "container") +:+
               " for artifact";
             report_artifact := json artifact |}
      else st in
    let expiry := now + 30 * 60 * 1000 in
    (Return (redirect 303
       (Some (ctx.(blobStore).(BlobStore.createSignedGetUrl)
                (artifact.(Artifact.details) !! "path") expiry))), st)
  (* Handle redirect artifacts *)
  else if decide (artifact.(Artifact.storageType) = "reference") then
    (Return (redirect 303 (artifact.(Artifact.details) !! "url")), st)
  (* Handle error artifacts *)
  else if decide (artifact.(Artifact.storageType) = "error") then
    (Return (status_json 403 (artifact.(Artifact.details) !! "reason")
                             (artifact.(Artifact.details) !! "message")), st)
  (* We should never arrive here *)
  else (Throw (ReferenceError "artifacts is not defined"), st)
  end.

(** The check both artifact getters start with:
    [!/^public\//.test(name) && !req.satisfies({name})] is false. *)
Definition mayGet (req : Request) : bool :=
  isPublicName req.(params_name) || req.(satisfies) (GetParams req.(params_name)).

(** The handler of [GET /task/:taskId/runs/:runId/artifacts/:name]. *)
Definition getArtifact (ctx : Context) (now : Z) (req : Request) (st : State)
  : Outcome * State :=
  let taskId := req.(params_taskId) in
  let runId  := req.(params_runId) in
  let name   := req.(params_name) in
  if negb (isPublicName name) && negb (req.(satisfies) (GetParams name))
  then (Return authRejected, st)
  else replyWithArtifact ctx now taskId runId name req st.

(** The handler of [GET /task/:taskId/artifacts/:name]. *)
Definition getLatestArtifact (ctx : Context) (now : Z) (req : Request)
    (st : State) : Outcome * State :=
  let taskId := req.(params_taskId) in
  let name   := req.(params_name) in
  if negb (isPublicName name) && negb (req.(satisfies) (GetParams name))
  then (Return authRejected, st)
  else
  (* Load task status structure from table *)
  match st.(tasks) !! taskId with
  | None =>
      (Return (reportError "ResourceNotFound" "Task not found" NoDetails), st)
  | Some task =>
  (* Check that we have runs *)
  if decide (length task.(Task.runs) = 0%nat) then
    (Return (reportError "ResourceNotFound" "Task doesn't have any runs"
               NoDetails), st)
  else
  (* Find highest runId *)
  let runId := Some (Z.of_nat (length task.(Task.runs)) - 1) in
  replyWithArtifact ctx now taskId runId name req st
  end.

(** The body of a list response, lines 578-585 and 646-653. *)
Definition listResult (page : Page) : ReplyBody :=
  ListReply (map json page.(entries)) (or_null page.(continuation)).

(** The handler of [GET /task/:taskId/runs/:runId/artifacts]. *)
Definition listArtifacts (ctx : Context) (req : Request) (st : State)
  : Outcome * State :=
  let taskId       := req.(params_taskId) in
  let runId        := req.(params_runId) in
  let continuation := or_null req.(query_continuationToken) in
  let limit        := default 1000 req.(query_limit) in
  let task      := st.(tasks) !! taskId in
  let artifacts := ctx.(Artifact_query) st.(artifacts) taskId runId
                     continuation limit in
  match task with
  | None =>
      (Return (reportError "ResourceNotFound"
                 "No task with taskId: {{taskId}} found"
                 (TaskIdDetails taskId)), st)
  | Some task =>
  (* Check that we have the run *)
  match runs_at task.(Task.runs) runId with
  | None =>
      (Return (reportError "ResourceNotFound"
                 ("Task with taskId: {{taskId}} run with runId: {{runId}}" +:+
                  nl +:+ "task status: {{status}}")
                 (RunDetails taskId runId task.(Task.status))), st)
  | Some _ => (Return (reply (listResult artifacts)), st)
  end
  end.

(** The handler of [GET /task/:taskId/artifacts]. *)
Definition listLatestArtifacts (ctx : Context) (req : Request) (st : State)
  : Outcome * State :=
  let taskId       := req.(params_taskId) in
  let continuation := or_null req.(query_continuationToken) in
  let limit        := default 1000 req.(query_limit) in
  (* Load task status structure from table *)
  match st.(tasks) !! taskId with
  | None =>
      (Return (reportError "ResourceNotFound"
                 "No task with taskId: {{taskId}} found"
                 (TaskIdDetails taskId)), st)
  | Some task =>
  (* Check that we have runs *)
  if decide (length task.(Task.runs) = 0%nat) then
    (Return (reportError "ResourceNotFound"
               "Task with taskId: {{taskId}} does not have any runs"
               (TaskIdDetails taskId)), st)
  else
  (* Find highest runId *)
  let runId := Some (Z.of_nat (length task.(Task.runs)) - 1) in
  let artifacts := ctx.(Artifact_query) st.(artifacts) taskId runId
                     continuation limit in
  (Return (reply (listResult artifacts)), st)
  end.

(** ** Notions used to state the properties *)

(** The key a [createArtifact] request addresses. *)
Definition key (req : Request) : ArtifactKey :=
  (req.(params_taskId), req.(params_runId), req.(params_name)).

(** The content type a [createArtifact] request asks for. *)
Definition requestedContentType (req : Request) : string :=
  or_else req.(body).(Input.contentType) "application/json".

(** The claims [createArtifact] authenticates with. *)
Definition createClaims (req : Request) (run : Run) : AuthParams :=
  CreateParams req.(params_taskId) req.(params_runId)
    run.(workerGroup) run.(workerId) req.(params_name).

(** The first five validations of [createArtifact] pass, with [task] and
    [run] the task and the run found. *)
Definition checked (clk : Clock) (req : Request) (st : State)
    (task : Task.t) (run : Run) : Prop :=
  clk.(t_validate) - minutes 15 <= req.(body).(Input.expires)
  ∧ st.(tasks) !! req.(params_taskId) = Some task
  ∧ runs_at task.(Task.runs) req.(params_runId) = Some run
  ∧ req.(satisfies) (createClaims req run) = true
  ∧ req.(body).(Input.expires) <= task.(Task.expires).

(** All six validations pass. *)
Definition preflight_ok (clk : Clock) (req : Request) (st : State)
    (task : Task.t) (run : Run) : Prop :=
  checked clk req st task run ∧ uploadAllowed clk.(t_runcheck) run = true.

(** The upload window in words: a running run, or a run resolved
    [exception] less than 25 minutes before [now]. *)
Definition withinUploadWindow (now : Z) (run : Run) : Prop :=
  run.(state) = "running"
  ∨ (run.(state) = "exception"
     ∧ ∃ r, run.(resolved) = Some r ∧ now - r < minutes 25).

(** The response of the run check. *)
Definition runConflict (task : Task.t) : Outcome :=
  Return (reportError "RequestConflict" run_resolved_message
            (StatusDetails task.(Task.status))).

(** A handler succeeded: it wrote a reply. *)
Definition succeeded (o : Outcome) : Prop := ∃ b, o = Return (reply b).

(** A handler answered with the error kind [kind]. *)
Definition failedWith (kind : string) (o : Outcome) : Prop :=
  ∃ msg d, o = Return (reportError kind msg d).

(** The mismatch that makes a re-create a conflict: another storage type,
    another content type, a later stored expiration, or, unless the storage
    type is [reference], other details. *)
Definition conflicting (req : Request) (details : gmap string string)
    (existing : Artifact.t) : Prop :=
  existing.(Artifact.storageType) ≠ req.(body).(Input.storageType)
  ∨ existing.(Artifact.contentType) ≠ requestedContentType req
  ∨ existing.(Artifact.expires) > req.(body).(Input.expires)
  ∨ (req.(body).(Input.storageType) ≠ "reference"
     ∧ existing.(Artifact.details) ≠ details).

(** The details [createArtifact] constructs for a request. *)
Definition requestedDetails (ctx : Context) (req : Request)
  : option (gmap string string) :=
  constructDetails ctx req.(params_taskId) req.(params_runId)
    req.(params_name) req.(body).

(** The [details] of a stored S3 artifact under its key: the bucket by the
    [public/] prefix of the name, the prefix from the three key parts. *)
Definition s3DetailsOf (ctx : Context) (k : ArtifactKey)
    (d : gmap string string) : Prop :=
  d !! "bucket" = Some (if isPublicName k.2 then ctx.(publicBucket).(Bucket.bucket)
                        else ctx.(privateBucket).(Bucket.bucket))
  ∧ d !! "prefix" = Some (k.1.1 +:+ "/" +:+ Number_toString k.1.2 +:+ "/" +:+ k.2).

(** The bucket invariant of the Artifact table: every record sits under
    its own key, and every S3 record has the details of its key. *)
Definition bucketInvariant (ctx : Context) (tbl : gmap ArtifactKey Artifact.t)
  : Prop :=
  ∀ k a, tbl !! k = Some a →
    (a.(Artifact.taskId), a.(Artifact.runId), a.(Artifact.name)) = k
    ∧ (a.(Artifact.storageType) = "s3" → s3DetailsOf ctx k a.(Artifact.details)).

(** The states the handlers reach from an empty Artifact table.  Between
    calls the Task table may change in any way. *)
Inductive reachable (ctx : Context) : State → Prop :=
| reach_init st :
    st.(artifacts) = ∅ → reachable ctx st
| reach_tasks st tasks' :
    reachable ctx st →
    reachable ctx {| tasks := tasks'; artifacts := st.(artifacts);
                     published := st.(published); reported := st.(reported) |}
| reach_create st clk req :
    reachable ctx st → reachable ctx (createArtifact ctx clk req st).2
| reach_get st now req :
    reachable ctx st → reachable ctx (getArtifact ctx now req st).2
| reach_getLatest st now req :
    reachable ctx st → reachable ctx (getLatestArtifact ctx now req st).2
| reach_list st req :
    reachable ctx st → reachable ctx (listArtifacts ctx req st).2
| reach_listLatest st req :
    reachable ctx st → reachable ctx (listLatestArtifacts ctx req st).2.

(** The request [req] with its [runId] parameter set. *)
Definition with_runId (req : Request) (runId : option Z) : Request :=
  {| params_taskId := req.(params_taskId); params_runId := runId;
     params_name := req.(params_name); body := req.(body);
     headers := req.(headers);
     query_continuationToken := req.(query_continuationToken);
     query_limit := req.(query_limit); satisfies := req.(satisfies) |}.

(** The value of the [x-taskcluster-skip-cache] header asks to skip the
    cache. *)
Definition skipCache (req : Request) : Prop :=
  let h := toLowerCase (or_else (req.(headers) !! "x-taskcluster-skip-cache") "") in
  h = "true" ∨ h = "1".

(** No [?] and no [#] in a string. *)
Fixpoint pathSafe (s : string) : bool :=
  match s with
  | EmptyString => true
  | String c r => negb (Ascii.eqb c "?" || Ascii.eqb c "#") && pathSafe r
  end.

(** The record [Artifact.create] inserts for a request, lines 207-215. *)
Definition freshArtifact (req : Request) (details : gmap string string)
  : Artifact.t :=
  {| Artifact.taskId := req.(params_taskId);
     Artifact.runId := req.(params_runId);
     Artifact.name := req.(params_name);
     Artifact.storageType := req.(body).(Input.storageType);
     Artifact.contentType := requestedContentType req;
     Artifact.details := details;
     Artifact.expires := req.(body).(Input.expires) |}.

(** The storage types [createArtifact] constructs details for. *)
Definition knownStorageType (s : string) : Prop :=
  s = "s3" ∨ s = "azure" ∨ s = "reference" ∨ s = "error".

(** The details of [a] are those [constructDetails] makes, under the key
    [k], for some request body of the storage type of [a]. *)
Definition constructedFor (ctx : Context) (k : ArtifactKey) (a : Artifact.t)
  : Prop :=
  ∃ input, input.(Input.storageType) = a.(Artifact.storageType)
           ∧ constructDetails ctx k.1.1 k.1.2 k.2 input
             = Some a.(Artifact.details).

(** What the handlers keep true of the Artifact table: every record sits
    under its own key, its run number is a natural number, and its details
    were constructed for that key. *)
Definition tableInvariant (ctx : Context) (tbl : gmap ArtifactKey Artifact.t)
  : Prop :=
  ∀ k a, tbl !! k = Some a →
    (a.(Artifact.taskId), a.(Artifact.runId), a.(Artifact.name)) = k
    ∧ (∃ z, k.1.2 = Some z ∧ 0 <= z)
    ∧ constructedFor ctx k a.

(** The URL capabilities of the two buckets never return the empty
    string. *)
Definition urlsNonEmpty (ctx : Context) : Prop :=
  ∀ b, b = ctx.(publicBucket) ∨ b = ctx.(privateBucket) →
    (∀ p forceS3, b.(Bucket.createGetUrl) p forceS3 ≠ "")
    ∧ (∀ p ttl, b.(Bucket.createSignedGetUrl) p ttl ≠ "").

(** A handler threw. *)
Definition threw (o : Outcome) : Prop := ∃ e, o = Throw e.

(** ** A concrete deployment, for the examples

    Two buckets, a blob container, a mirror, and the task [T1] of the
    end-to-end scenarios: it expires at [100000000], and its run 0 is
    running on worker [g/w]. *)
Module Scenario.

Definition mkBucket (bucketName cdn : string) : Bucket.t :=
  {| Bucket.bucket := bucketName;
     Bucket.createPutUrl := fun p _ _ =>
       "https://" +:+ bucketName +:+ ".s3.example/" +:+ String_of p +:+ "?put";
     Bucket.createGetUrl := fun p forceS3 =>
       if forceS3
       then "https://" +:+ bucketName +:+ ".s3.example/" +:+ String_of p
       else "https://" +:+ cdn +:+ "/" +:+ String_of p;
     Bucket.createSignedGetUrl := fun p _ =>
       "https://" +:+ bucketName +:+ ".s3.example/" +:+ String_of p +:+ "?sig" |}.

Definition ctx : Context :=
  {| publicBucket := mkBucket "pub" "cdn.example";
     privateBucket := mkBucket "priv" "cdn.example";
     blobStore :=
       {| BlobStore.container := "artifacts";
          BlobStore.generateWriteSAS := fun p _ =>
            "https://blob.example/" +:+ String_of p +:+ "?sas=w";
          BlobStore.createSignedGetUrl := fun p _ =>
            "https://blob.example/" +:+ String_of p +:+ "?sas=r" |};
     artifactRegion := "us-west-2";
     cloudMirrorHost := "mirror.example";
     regionResolver := fun r => r.(headers) !! "x-region";
     Artifact_query := fun tbl t r _ _ =>
       {| entries := omap (fun kv => if decide (kv.1.1 = (t, r))
                                      then Some kv.2 else None)
                          (map_to_list tbl);
          continuation := None |} |}.

Definition run (st : string) (res : option Z) : Run :=
  {| state := st; workerGroup := Some "g"; workerId := Some "w";
     resolved := res |}.

Definition task (rs : list Run) : Task.t :=
  {| Task.expires := 100000000; Task.routes := ["route.one"];
     Task.runs := rs; Task.status := "{status of T1}" |}.

Definition clk : Clock :=
  {| t_validate := 10000000; t_runcheck := 10000001; t_reply := 10000002 |}.

Definition input (ty : string) (ct : option string) (e : Z) : Input.t :=
  {| Input.storageType := ty; Input.contentType := ct; Input.expires := e;
     Input.url := "https://elsewhere.example/a"; Input.message := "m";
     Input.reason := "r" |}.

Definition request (t : string) (r : option Z) (n : string) (i : Input.t)
    (h : gmap string string) (auth : bool) : Request :=
  {| params_taskId := t; params_runId := r; params_name := n; body := i;
     headers := h; query_continuationToken := None; query_limit := None;
     satisfies := fun _ => auth |}.

(** [POST /task/T1/runs/0/artifacts/<n>] by an authorized worker. *)
Definition post (n ty : string) (e : Z) : Request :=
  request "T1" (Some 0) n (input ty (Some "text/plain") e) ∅ true.

(** [GET /task/T1/runs/0/artifacts/<n>] with headers [h]. *)
Definition get (n : string) (h : gmap string string) : Request :=
  request "T1" (Some 0) n (input "" None 0) h true.

Definition state (rs : list Run) (tbl : gmap ArtifactKey Artifact.t) : State :=
  {| tasks := {[ "T1" := task rs ]}; artifacts := tbl;
     published := []; reported := [] |}.

Definition running : State := state [run "running" None] ∅.

Definition stored (n ty : string) (d : gmap string string) (e : Z)
  : Artifact.t :=
  {| Artifact.taskId := "T1"; Artifact.runId := Some 0; Artifact.name := n;
     Artifact.storageType := ty; Artifact.contentType := "text/plain";
     Artifact.details := d; Artifact.expires := e |}.

(** The table holding one artifact of [T1], run 0. *)
Definition table (a : Artifact.t) : gmap ArtifactKey Artifact.t :=
  {[ ("T1", Some 0, a.(Artifact.name)) := a ]}.

Definition publicLog : Artifact.t :=
  stored "public/log.txt" "s3"
    (<["prefix" := "T1/0/public/log.txt"]> (<["bucket" := "pub"]> ∅)) 50000000.

End Scenario.

(** ** Properties of [createArtifact]: validation *)


Lemma uploadAllowed_window now run :
  uploadAllowed now run = true ↔ withinUploadWindow now run.
Proof.
  unfold uploadAllowed, withinUploadWindow, minutes.
  destruct (decide (state run = "running")) as [Hr|Hr].
  { split; auto. }
  destruct (decide (state run = "exception")) as [He|He].
  - destruct (resolved run) as [r|].
    + rewrite Z.ltb_lt. split.
      * intros H. right. split; [done|]. exists r. split; [done|lia].
      * intros [?|[_ [r' [[= <-] H]]]]; [done|lia].
    + split; [done|]. intros [?|[_ [r' [? _]]]]; done.
  - split; [done|]. intros [?|[? _]]; done.
Qed.

(** Once the first five validations pass, only the run check stands
    between the request and the store. *)
Lemma createArtifact_checked ctx clk req st task run :
  checked clk req st task run →
  createArtifact ctx clk req st =
    if uploadAllowed clk.(t_runcheck) run
    then storeArtifact ctx clk req task run st
    else (runConflict task, st).
Proof.
  unfold checked, createClaims, minutes.
  intros (Hpast & Htask & Hrun & Hauth & Hexp).
  unfold createArtifact.
  destruct (Z.ltb_spec (Input.expires (body req))
              (t_validate clk - 15 * 60 * 1000)) as [?|_]; [lia|].
  rewrite Htask, Hrun, Hauth. simpl.
  destruct (Z.ltb_spec (Task.expires task) (Input.expires (body req)))
    as [?|_]; [lia|].
  by destruct (uploadAllowed (t_runcheck clk) run).
Qed.

Lemma createArtifact_preflight_ok ctx clk req st task run :
  preflight_ok clk req st task run →
  createArtifact ctx clk req st = storeArtifact ctx clk req task run st.
Proof.
  intros [Hc Hu]. by rewrite (createArtifact_checked _ _ _ _ _ _ Hc), Hu.
Qed.



(** [replyCreated] replies or throws; it never reports an error. *)
Lemma replyCreated_not_error ctx now requested artifact kind msg d :
  replyCreated ctx now requested artifact ≠ Return (reportError kind msg d).
Proof.
  unfold replyCreated.
  repeat case_decide; try done.
  by destruct (selectBucket ctx artifact).
Qed.

(** The response of the run check comes from the run check alone. *)
Lemma storeArtifact_not_runConflict ctx clk req task run st :
  (storeArtifact ctx clk req task run st).1 ≠ runConflict task.
Proof.
  unfold storeArtifact, runConflict, publishAndReply.
  destruct (constructDetails _ _ _ _ _); [|done].
  destruct (artifacts st !! _); simpl.
  - repeat case_decide; simpl; try done. apply replyCreated_not_error.
  - apply replyCreated_not_error.
Qed.

(** C7, as the code has it: after the earlier validations, the upload
    goes on to the store when the run is running or was resolved
    [exception] strictly less than 25 minutes ago, and in every other case
    the call fails with [RequestConflict] citing the task status, the state
    left as it was. *)
Theorem createArtifact_upload_window ctx clk req st task run :
  checked clk req st task run →
  (withinUploadWindow clk.(t_runcheck) run →
     createArtifact ctx clk req st = storeArtifact ctx clk req task run st)
  ∧ (¬ withinUploadWindow clk.(t_runcheck) run →
     createArtifact ctx clk req st = (runConflict task, st))
  ∧ ((createArtifact ctx clk req st).1 = runConflict task
     ↔ ¬ withinUploadWindow clk.(t_runcheck) run).
Proof.
  intros Hc. rewrite (createArtifact_checked ctx _ _ _ _ _ Hc).
  rewrite <- uploadAllowed_window.
  destruct (uploadAllowed (t_runcheck clk) run); repeat split; try done.
  intros H. by apply storeArtifact_not_runConflict in H.
Qed.

(** A run resolved [exception] ten minutes ago takes the upload; one
    resolved thirty minutes ago does not. *)
Lemma createArtifact_upload_window_witness :
  let recent := Scenario.run "exception" (Some (10000001 - minutes 10)) in
  let old := Scenario.run "exception" (Some (10000001 - minutes 30)) in
  let req := Scenario.post "public/log.txt" "s3" 50000000 in
  createArtifact Scenario.ctx Scenario.clk req (Scenario.state [recent] ∅)
    = storeArtifact Scenario.ctx Scenario.clk req (Scenario.task [recent])
        recent (Scenario.state [recent] ∅)
  ∧ createArtifact Scenario.ctx Scenario.clk req (Scenario.state [old] ∅)
    = (runConflict (Scenario.task [old]), Scenario.state [old] ∅).
Proof.
  intros recent old req. split.
  - apply (createArtifact_upload_window Scenario.ctx Scenario.clk req
             (Scenario.state [recent] ∅) (Scenario.task [recent]) recent).
    + unfold checked. vm_compute. repeat split; discriminate.
    + right. split; [reflexivity|]. exists (10000001 - minutes 10).
      split; [reflexivity|]. vm_compute. reflexivity.
  - apply (createArtifact_upload_window Scenario.ctx Scenario.clk req
             (Scenario.state [old] ∅) (Scenario.task [old]) old).
    + unfold checked. vm_compute. repeat split; discriminate.
    + intros [H|[_ [r [[= <-] H]]]]; [discriminate H|].
      vm_compute in H. discriminate H.
Defined.

(** C7 as stated fails at the boundary: a run resolved [exception] exactly
    25 minutes before the run check satisfies [now − resolved ≤ 25 min],
    yet the upload is refused. *)
Lemma upload_at_25_minutes_refused :
  let r := Scenario.run "exception" (Some (10000001 - minutes 25)) in
  let req := Scenario.post "public/log.txt" "s3" 50000000 in
  let st := Scenario.state [r] ∅ in
  checked Scenario.clk req st (Scenario.task [r]) r
  ∧ r.(state) = "exception"
  ∧ (∃ t, r.(resolved) = Some t
       ∧ Scenario.clk.(t_runcheck) - t <= minutes 25)
  ∧ createArtifact Scenario.ctx Scenario.clk req st
    = (Return (reportError "RequestConflict" run_resolved_message
                 (StatusDetails "{status of T1}")), st).
Proof.
  intros r req st. split; [|split; [|split]].
  - unfold checked. vm_compute. repeat split; discriminate.
  - reflexivity.
  - exists (10000001 - minutes 25). split; [reflexivity|].
    vm_compute. discriminate.
  - vm_compute. reflexivity.
Qed.

(** ** Properties of [createArtifact]: the store and the reply *)

(** [constructDetails] knows four storage types. *)
Lemma constructDetails_storageType ctx t r n input d :
  constructDetails ctx t r n input = Some d →
  input.(Input.storageType) = "s3" ∨ input.(Input.storageType) = "azure"
  ∨ input.(Input.storageType) = "reference"
  ∨ input.(Input.storageType) = "error".
Proof.
  unfold constructDetails. repeat case_decide; auto. discriminate.
Qed.

(** The details constructed for an S3 artifact name one of the two
    buckets. *)
Lemma constructDetails_s3 ctx t r n input :
  input.(Input.storageType) = "s3" →
  ∃ d, constructDetails ctx t r n input = Some d
       ∧ s3DetailsOf ctx (t, r, n) d.
Proof.
  intros Hs. unfold constructDetails. rewrite decide_True by done.
  eexists. split; [reflexivity|]. unfold s3DetailsOf. simpl. split.
  - rewrite lookup_insert_ne by done. by rewrite lookup_insert_eq.
  - by rewrite lookup_insert_eq.
Qed.

(** A bucket name that is one of the two configured ones selects the
    wrapper of that name. *)
Lemma selectBucket_configured ctx artifact b :
  artifact.(Artifact.details) !! "bucket" = Some b →
  b = ctx.(publicBucket).(Bucket.bucket)
  ∨ b = ctx.(privateBucket).(Bucket.bucket) →
  ∃ w, selectBucket ctx artifact = Some w ∧ w.(Bucket.bucket) = b.
Proof.
  intros Hb Hor. unfold selectBucket. rewrite Hb.
  destruct (decide (Some b = Some (Bucket.bucket (privateBucket ctx))))
    as [[= ->]|Hn].
  - by eexists.
  - destruct (decide (Some b = Some (Bucket.bucket (publicBucket ctx))))
      as [[= ->]|Hn'].
    + by eexists.
    + destruct Hor as [->| ->]; done.
Qed.

(** The reply to an artifact that carries the details just constructed for
    the request is a success. *)
Lemma replyCreated_constructed ctx now t r n input d artifact :
  constructDetails ctx t r n input = Some d →
  artifact.(Artifact.storageType) = input.(Input.storageType) →
  artifact.(Artifact.details) = d →
  succeeded (replyCreated ctx now input.(Input.storageType) artifact).
Proof.
  intros Hd Hs Ha. unfold replyCreated, succeeded. rewrite Hs.
  destruct (constructDetails_storageType _ _ _ _ _ _ Hd) as [H|[H|[H|H]]].
  - destruct (constructDetails_s3 ctx t r n input H) as (d' & Hd' & Hb & _).
    rewrite Hd in Hd'. injection Hd' as <-.
    rewrite decide_True by done.
    destruct (selectBucket_configured ctx artifact _ ltac:(by rewrite Ha))
      as (w & -> & _).
    + destruct (isPublicName _); auto.
    + by eexists.
  - rewrite H. simpl. by eexists.
  - rewrite H. simpl. by eexists.
  - rewrite H. simpl. by eexists.
Qed.

(** [storeArtifact] on a key that is taken. *)
Lemma storeArtifact_existing ctx clk req task run st details existing :
  requestedDetails ctx req = Some details →
  st.(artifacts) !! key req = Some existing →
  let r := storeArtifact ctx clk req task run st in
  (conflicting req details existing →
     failedWith "RequestConflict" r.1 ∧ r.2 = st)
  ∧ (¬ conflicting req details existing →
     let a := modified existing req.(body).(Input.expires) details in
     succeeded r.1
     ∧ r.2 = publish (set_artifacts st (<[key req := a]> st.(artifacts)))
               (creationMessage task run req.(params_runId) a)).
Proof.
  unfold requestedDetails. intros Hd He. unfold key in He.
  unfold storeArtifact.
  rewrite Hd, He. unfold conflicting, requestedContentType. simpl.
  split.
  - intros Hc. unfold failedWith.
    case_decide as H1; simpl; [by eauto|].
    case_decide as H2; simpl; [by eauto|].
    exfalso. destruct Hc as [?|[?|[?|?]]]; [tauto..|done].
  - intros Hc.
    rewrite decide_False by tauto. rewrite decide_False by tauto.
    unfold publishAndReply, key. simpl. split; [|done].
    eapply replyCreated_constructed; [exact Hd| |done].
    simpl. destruct (decide (Artifact.storageType existing
                             = Input.storageType (body req))); [done|tauto].
Qed.

(** C3: when the key of a [createArtifact] call is taken, a stored
    artifact that differs in storage type or content type, expires later
    than the request, or (storage type other than [reference]) has other
    details makes the call fail with [RequestConflict], the state left as
    it was; otherwise (for [reference], whatever the stored url) the
    call succeeds and the record carries the new expiration and details. *)
Theorem createArtifact_reconcile ctx clk req st task run details existing :
  preflight_ok clk req st task run →
  requestedDetails ctx req = Some details →
  st.(artifacts) !! key req = Some existing →
  let r := createArtifact ctx clk req st in
  (conflicting req details existing →
     failedWith "RequestConflict" r.1 ∧ r.2 = st)
  ∧ (¬ conflicting req details existing →
     let a := modified existing req.(body).(Input.expires) details in
     succeeded r.1
     ∧ r.2.(artifacts) = <[key req := a]> st.(artifacts)
     ∧ r.2.(published) =
         (st.(published)
            ++ [creationMessage task run req.(params_runId) a])%list).
Proof.
  intros Hp Hd He r. subst r.
  rewrite (createArtifact_preflight_ok ctx _ _ _ _ _ Hp).
  destruct (storeArtifact_existing ctx clk req task run st details existing
              Hd He) as [Hc Hn].
  split; [exact Hc|].
  intros Hnc. destruct (Hn Hnc) as [Hs ->]. by split.
Qed.

(** Scenario 3 (the same S3 artifact asked again as [text/html]) is a
    conflict; a [reference] artifact asked again with another url and a
    later expiration is updated. *)
Lemma createArtifact_reconcile_witness :
  let st := Scenario.state [Scenario.run "running" None]
              (Scenario.table Scenario.publicLog) in
  let html := Scenario.request "T1" (Some 0) "public/log.txt"
                (Scenario.input "s3" (Some "text/html") 50000000) ∅ true in
  let link := Scenario.stored "link" "reference"
                (<["url" := "https://old.example/a"]> ∅) 50000000 in
  let st' := Scenario.state [Scenario.run "running" None]
               (Scenario.table link) in
  let again := Scenario.post "link" "reference" 60000000 in
  (failedWith "RequestConflict"
     (createArtifact Scenario.ctx Scenario.clk html st).1
   ∧ (createArtifact Scenario.ctx Scenario.clk html st).2 = st)
  ∧ (succeeded (createArtifact Scenario.ctx Scenario.clk again st').1
     ∧ (createArtifact Scenario.ctx Scenario.clk again st').2.(artifacts)
       = Scenario.table
           (Scenario.stored "link" "reference"
              (<["url" := "https://elsewhere.example/a"]> ∅) 60000000)).
Proof.
  intros st html link st' again. split.
  - apply (createArtifact_reconcile Scenario.ctx Scenario.clk html st
             (Scenario.task [Scenario.run "running" None])
             (Scenario.run "running" None)
             Scenario.publicLog.(Artifact.details) Scenario.publicLog).
    + unfold preflight_ok, checked. vm_compute.
      repeat split; (discriminate || reflexivity).
    + vm_compute. reflexivity.
    + vm_compute. reflexivity.
    + right. left. vm_compute. discriminate.
  - destruct (createArtifact_reconcile Scenario.ctx Scenario.clk again st'
                (Scenario.task [Scenario.run "running" None])
                (Scenario.run "running" None)
                (<["url" := "https://elsewhere.example/a"]> ∅) link)
      as [_ H].
    + unfold preflight_ok, checked. vm_compute.
      repeat split; (discriminate || reflexivity).
    + vm_compute. reflexivity.
    + vm_compute. reflexivity.
    + destruct H as (Hs & Ht & _).
      * intros [H|[H|[H|[H _]]]].
        -- by apply H.
        -- by apply H.
        -- vm_compute in H. discriminate H.
        -- by apply H.
      * split; [exact Hs|]. rewrite Ht. vm_compute. reflexivity.
Defined.

(** C1, as the code has it: a re-create with the stored storage type,
    content type and details fails with [RequestConflict] and changes
    nothing when its expiration is strictly earlier than the stored one,
    and succeeds, storing the new expiration, when it is equal or later;
    either way the stored expiration does not decrease. *)
Theorem recreate_expires_monotone ctx clk req st task run details stored :
  preflight_ok clk req st task run →
  requestedDetails ctx req = Some details →
  st.(artifacts) !! key req = Some stored →
  stored.(Artifact.storageType) = req.(body).(Input.storageType) →
  stored.(Artifact.contentType) = requestedContentType req →
  stored.(Artifact.details) = details →
  let r := createArtifact ctx clk req st in
  let expires := req.(body).(Input.expires) in
  (expires < stored.(Artifact.expires) →
     failedWith "RequestConflict" r.1 ∧ r.2 = st)
  ∧ (stored.(Artifact.expires) <= expires →
     succeeded r.1
     ∧ ∃ a, r.2.(artifacts) !! key req = Some a
            ∧ a.(Artifact.expires) = expires)
  ∧ (∃ a, r.2.(artifacts) !! key req = Some a
          ∧ stored.(Artifact.expires) <= a.(Artifact.expires)).
Proof.
  intros Hp Hd He Hs Hc Hdet r expires. subst r expires.
  rewrite (createArtifact_preflight_ok ctx _ _ _ _ _ Hp).
  destruct (storeArtifact_existing ctx clk req task run st details stored
              Hd He) as [Hconf Hnot].
  assert (Hearlier : Input.expires (body req) < Artifact.expires stored →
                     conflicting req details stored).
  { intros H. right. right. left. lia. }
  assert (Hlater : Artifact.expires stored <= Input.expires (body req) →
                   ¬ conflicting req details stored).
  { intros H [?|[?|[?|[_ ?]]]]; [done|done|lia|done]. }
  split; [|split].
  - intros H. exact (Hconf (Hearlier H)).
  - intros H. destruct (Hnot (Hlater H)) as [Hok ->]. split; [exact Hok|].
    eexists. split; [apply lookup_insert_eq|done].
  - destruct (Z.lt_ge_cases (Input.expires (body req))
                (Artifact.expires stored)) as [H|H].
    + destruct (Hconf (Hearlier H)) as [_ ->]. exists stored. split; [done|lia].
    + destruct (Hnot (Hlater H)) as [_ ->].
      eexists. split; [apply lookup_insert_eq|done].
Qed.

(** Scenario 2: the stored S3 artifact asked again twelve hours later is
    extended; asked again with an earlier expiration it is a conflict. *)
Lemma recreate_expires_monotone_witness :
  let st := Scenario.state [Scenario.run "running" None]
              (Scenario.table Scenario.publicLog) in
  let later := Scenario.post "public/log.txt" "s3" 93200000 in
  let earlier := Scenario.post "public/log.txt" "s3" 40000000 in
  (succeeded (createArtifact Scenario.ctx Scenario.clk later st).1
   ∧ ∃ a, (createArtifact Scenario.ctx Scenario.clk later st).2.(artifacts)
            !! key later = Some a
          ∧ a.(Artifact.expires) = 93200000)
  ∧ (failedWith "RequestConflict"
       (createArtifact Scenario.ctx Scenario.clk earlier st).1
     ∧ (createArtifact Scenario.ctx Scenario.clk earlier st).2 = st).
Proof.
  intros st later earlier. split.
  - destruct (recreate_expires_monotone Scenario.ctx Scenario.clk later st
                (Scenario.task [Scenario.run "running" None])
                (Scenario.run "running" None)
                Scenario.publicLog.(Artifact.details) Scenario.publicLog)
      as (_ & H & _).
    + unfold preflight_ok, checked. vm_compute.
      repeat split; (discriminate || reflexivity).
    + vm_compute. reflexivity.
    + vm_compute. reflexivity.
    + reflexivity.
    + reflexivity.
    + reflexivity.
    + apply H. vm_compute. discriminate.
  - destruct (recreate_expires_monotone Scenario.ctx Scenario.clk earlier st
                (Scenario.task [Scenario.run "running" None])
                (Scenario.run "running" None)
                Scenario.publicLog.(Artifact.details) Scenario.publicLog)
      as (H & _).
    + unfold preflight_ok, checked. vm_compute.
      repeat split; (discriminate || reflexivity).
    + vm_compute. reflexivity.
    + vm_compute. reflexivity.
    + reflexivity.
    + reflexivity.
    + reflexivity.
    + apply H. vm_compute. reflexivity.
Defined.

(** C1 as stated fails: a re-create with the stored storage type, content
    type and details and a strictly earlier expiration does not succeed; it
    is answered with [RequestConflict]. *)
Lemma recreate_earlier_expires_conflicts :
  let st := Scenario.state [Scenario.run "running" None]
              (Scenario.table Scenario.publicLog) in
  let req := Scenario.post "public/log.txt" "s3" 40000000 in
  st.(artifacts) !! key req = Some Scenario.publicLog
  ∧ Scenario.publicLog.(Artifact.storageType) = req.(body).(Input.storageType)
  ∧ Scenario.publicLog.(Artifact.contentType) = requestedContentType req
  ∧ requestedDetails Scenario.ctx req
    = Some Scenario.publicLog.(Artifact.details)
  ∧ req.(body).(Input.expires) < Scenario.publicLog.(Artifact.expires)
  ∧ createArtifact Scenario.ctx Scenario.clk req st
    = (Return (reportError "RequestConflict" exists_type_message
                 (OriginalArtifact "s3" "text/plain" 50000000)), st)
  ∧ ¬ succeeded (createArtifact Scenario.ctx Scenario.clk req st).1.
Proof.
  intros st req.
  assert (Hrun : createArtifact Scenario.ctx Scenario.clk req st
                 = (Return (reportError "RequestConflict" exists_type_message
                              (OriginalArtifact "s3" "text/plain" 50000000)),
                    st)) by (vm_compute; reflexivity).
  split; [vm_compute; reflexivity|].
  split; [reflexivity|].
  split; [reflexivity|].
  split; [vm_compute; reflexivity|].
  split; [vm_compute; reflexivity|].
  split; [exact Hrun|].
  rewrite Hrun. intros [b Hb]. discriminate Hb.
Qed.

(** [storeArtifact] on a free key: the artifact is inserted, the creation
    is published, the reply is a success. *)
Lemma storeArtifact_fresh ctx clk req task run st details :
  requestedDetails ctx req = Some details →
  st.(artifacts) !! key req = None →
  let a := {| Artifact.taskId := req.(params_taskId);
              Artifact.runId := req.(params_runId);
              Artifact.name := req.(params_name);
              Artifact.storageType := req.(body).(Input.storageType);
              Artifact.contentType := requestedContentType req;
              Artifact.details := details;
              Artifact.expires := req.(body).(Input.expires) |} in
  let r := storeArtifact ctx clk req task run st in
  succeeded r.1
  ∧ r.2 = publish (set_artifacts st (<[key req := a]> st.(artifacts)))
            (creationMessage task run req.(params_runId) a).
Proof.
  unfold requestedDetails, key. intros Hd Hk. unfold storeArtifact.
  rewrite Hd, Hk. unfold publishAndReply. simpl. split; [|done].
  by eapply replyCreated_constructed.
Qed.

(** What [createArtifact] does to the Artifact table: nothing, or one
    write under the key of the request, of a record that has the requested
    storage type and the constructed details and that sits under the key
    of the request or keeps the key parts of the record it replaces. *)
Lemma createArtifact_table ctx clk req st :
  let tbl := (createArtifact ctx clk req st).2.(artifacts) in
  tbl = st.(artifacts)
  ∨ ∃ a, tbl = <[key req := a]> st.(artifacts)
         ∧ a.(Artifact.storageType) = req.(body).(Input.storageType)
         ∧ requestedDetails ctx req = Some a.(Artifact.details)
         ∧ match st.(artifacts) !! key req with
           | None => (a.(Artifact.taskId), a.(Artifact.runId),
                      a.(Artifact.name)) = key req
           | Some e => (a.(Artifact.taskId), a.(Artifact.runId),
                        a.(Artifact.name))
                       = (e.(Artifact.taskId), e.(Artifact.runId),
                          e.(Artifact.name))
           end.
Proof.
  unfold createArtifact.
  destruct (_ <? _); [by left|].
  destruct (tasks st !! _) as [task|]; [|by left].
  destruct (runs_at _ _) as [run|]; [|by left].
  destruct (negb (satisfies _ _)); [by left|].
  destruct (_ <? _); [by left|].
  destruct (negb (uploadAllowed _ _)); [by left|].
  destruct (requestedDetails ctx req) as [d|] eqn:Hd.
  - destruct (artifacts st !! key req) as [e|] eqn:He.
    + destruct (storeArtifact_existing ctx clk req task run st d e Hd He)
        as [Hc Hn].
      destruct (decide (conflicting req d e)) as [H|H].
      * destruct (Hc H) as [_ ->]. by left.
      * destruct (Hn H) as [_ ->]. right. eexists. split; [done|].
        simpl. split; [|done].
        destruct (decide (Artifact.storageType e
                          = Input.storageType (body req))); [done|].
        exfalso. apply H. by left.
    + destruct (storeArtifact_fresh ctx clk req task run st d Hd He)
        as [_ ->].
      right. eexists. split; [done|]. by simpl.
  - left. unfold storeArtifact. unfold requestedDetails in Hd. by rewrite Hd.
Qed.

(** The read end-points leave the Artifact table alone. *)
Lemma replyWithArtifact_table ctx now t r n req st :
  (replyWithArtifact ctx now t r n req st).2.(artifacts) = st.(artifacts).
Proof.
  unfold replyWithArtifact.
  destruct (artifacts st !! _); [|done].
  repeat case_decide; simpl; try done.
  by destruct (truthy _).
Qed.

Lemma getArtifact_table ctx now req st :
  (getArtifact ctx now req st).2.(artifacts) = st.(artifacts).
Proof.
  unfold getArtifact. destruct (_ && _); [done|].
  apply replyWithArtifact_table.
Qed.

Lemma getLatestArtifact_table ctx now req st :
  (getLatestArtifact ctx now req st).2.(artifacts) = st.(artifacts).
Proof.
  unfold getLatestArtifact. destruct (_ && _); [done|].
  destruct (tasks st !! _); [|done].
  case_decide; [done|]. apply replyWithArtifact_table.
Qed.

Lemma listArtifacts_state ctx req st : (listArtifacts ctx req st).2 = st.
Proof.
  unfold listArtifacts. destruct (tasks st !! _); [|done].
  by destruct (runs_at _ _).
Qed.

Lemma listLatestArtifacts_state ctx req st :
  (listLatestArtifacts ctx req st).2 = st.
Proof.
  unfold listLatestArtifacts. destruct (tasks st !! _); [|done].
  by case_decide.
Qed.

(** [createArtifact] keeps the bucket invariant. *)
Lemma createArtifact_bucketInvariant ctx clk req st :
  bucketInvariant ctx st.(artifacts) →
  bucketInvariant ctx (createArtifact ctx clk req st).2.(artifacts).
Proof.
  intros Hinv.
  destruct (createArtifact_table ctx clk req st)
    as [->|(a & -> & Hs & Hd & Hk)]; [done|].
  intros k a' Hl.
  destruct (decide (key req = k)) as [<-|Hne].
  - rewrite lookup_insert_eq in Hl. injection Hl as <-. split.
    + destruct (artifacts st !! key req) as [e|] eqn:He; [|done].
      rewrite Hk. by apply Hinv.
    + intros H3. rewrite Hs in H3.
      destruct (constructDetails_s3 ctx (params_taskId req) (params_runId req)
                  (params_name req) (body req) H3) as (d & Hd' & Hok).
      unfold requestedDetails in Hd. rewrite Hd in Hd'. by injection Hd' as ->.
  - rewrite lookup_insert_ne in Hl by done. by apply Hinv.
Qed.

(** The bucket invariant holds in every reachable state. *)
Lemma reachable_bucketInvariant ctx st :
  reachable ctx st → bucketInvariant ctx st.(artifacts).
Proof.
  induction 1 as [st Hempty| | | | | |]; simpl.
  - rewrite Hempty. intros k a Hl. by rewrite lookup_empty in Hl.
  - done.
  - by apply createArtifact_bucketInvariant.
  - by rewrite getArtifact_table.
  - by rewrite getLatestArtifact_table.
  - by rewrite listArtifacts_state.
  - by rewrite listLatestArtifacts_state.
Qed.

(** C6: a [createArtifact] call for storage type [s3] that passes the
    validations constructs details whose bucket is the public bucket when
    the name begins with [public/] and the private bucket otherwise, and
    whose prefix is [taskId/runId/name]; these are the details stored when
    the call succeeds, which it does on a free key.  Every S3 artifact of a
    state reached from an empty table has the details of its key, before
    and after the call. *)
Theorem s3_bucket_by_name ctx clk req st :
  let r := createArtifact ctx clk req st in
  (∀ task run,
     preflight_ok clk req st task run →
     req.(body).(Input.storageType) = "s3" →
     ∃ d, requestedDetails ctx req = Some d
          ∧ d !! "bucket" =
              Some (if isPublicName req.(params_name)
                    then ctx.(publicBucket).(Bucket.bucket)
                    else ctx.(privateBucket).(Bucket.bucket))
          ∧ d !! "prefix" =
              Some (req.(params_taskId) +:+ "/" +:+
                    Number_toString req.(params_runId) +:+ "/" +:+
                    req.(params_name))
          ∧ (st.(artifacts) !! key req = None → succeeded r.1)
          ∧ (succeeded r.1 →
             ∃ a, r.2.(artifacts) !! key req = Some a
                  ∧ a.(Artifact.storageType) = "s3"
                  ∧ a.(Artifact.details) = d))
  ∧ (reachable ctx st →
     bucketInvariant ctx st.(artifacts)
     ∧ bucketInvariant ctx r.2.(artifacts)).
Proof.
  intros r. subst r. split.
  - intros task run Hp Hs.
    destruct (constructDetails_s3 ctx (params_taskId req) (params_runId req)
                (params_name req) (body req) Hs) as (d & Hd & Hb & Hpre).
    exists d. split; [exact Hd|]. split; [exact Hb|]. split; [exact Hpre|].
    rewrite (createArtifact_preflight_ok ctx _ _ _ _ _ Hp).
    destruct (artifacts st !! key req) as [e|] eqn:He.
    + split; [done|]. intros Hok.
      destruct (storeArtifact_existing ctx clk req task run st d e Hd He)
        as [Hc Hn].
      destruct (decide (conflicting req d e)) as [H|H].
      * destruct (Hc H) as [(m & x & Hf) _]. destruct Hok as [b Hb'].
        rewrite Hf in Hb'. discriminate Hb'.
      * destruct (Hn H) as [_ ->]. eexists.
        split; [apply lookup_insert_eq|]. simpl. split; [|done].
        destruct (decide (Artifact.storageType e
                          = Input.storageType (body req))) as [->|]; [done|].
        exfalso. apply H. by left.
    + destruct (storeArtifact_fresh ctx clk req task run st d Hd He)
        as [Hok ->].
      split; [done|]. intros _. eexists.
      split; [apply lookup_insert_eq|]. by simpl.
  - intros Hr. split.
    + by apply reachable_bucketInvariant.
    + by apply createArtifact_bucketInvariant, reachable_bucketInvariant.
Qed.

(** Scenario 1: [public/log.txt] goes to the public bucket under the
    prefix [T1/0/public/log.txt]; [private/build.log] goes to the private
    bucket. *)
Lemma s3_bucket_by_name_witness :
  let pub := Scenario.post "public/log.txt" "s3" 50000000 in
  let priv := Scenario.post "private/build.log" "s3" 50000000 in
  (∃ a, (createArtifact Scenario.ctx Scenario.clk pub Scenario.running).2
          .(artifacts) !! key pub = Some a
        ∧ a.(Artifact.details) !! "bucket" = Some "pub"
        ∧ a.(Artifact.details) !! "prefix" = Some "T1/0/public/log.txt")
  ∧ (∃ a, (createArtifact Scenario.ctx Scenario.clk priv Scenario.running).2
            .(artifacts) !! key priv = Some a
          ∧ a.(Artifact.details) !! "bucket" = Some "priv"
          ∧ a.(Artifact.details) !! "prefix" = Some "T1/0/private/build.log")
  ∧ bucketInvariant Scenario.ctx
      (createArtifact Scenario.ctx Scenario.clk pub Scenario.running).2
        .(artifacts).
Proof.
  intros pub priv.
  assert (Hpre : ∀ req,
            req = pub ∨ req = priv →
            preflight_ok Scenario.clk req Scenario.running
              (Scenario.task [Scenario.run "running" None])
              (Scenario.run "running" None)).
  { intros req [-> | ->]; unfold preflight_ok, checked; vm_compute;
      repeat split; (discriminate || reflexivity). }
  split; [|split].
  - destruct (s3_bucket_by_name Scenario.ctx Scenario.clk pub Scenario.running)
      as [H _].
    destruct (H _ _ (Hpre pub (or_introl eq_refl)) eq_refl)
      as (d & _ & Hb & Hp & Hfree & Hstored).
    destruct (Hstored (Hfree eq_refl)) as (a & Ha & _ & Hd).
    exists a. rewrite Hd. by repeat split.
  - destruct (s3_bucket_by_name Scenario.ctx Scenario.clk priv Scenario.running)
      as [H _].
    destruct (H _ _ (Hpre priv (or_intror eq_refl)) eq_refl)
      as (d & _ & Hb & Hp & Hfree & Hstored).
    destruct (Hstored (Hfree eq_refl)) as (a & Ha & _ & Hd).
    exists a. rewrite Hd. by repeat split.
  - apply (s3_bucket_by_name Scenario.ctx Scenario.clk pub Scenario.running).
    by apply reach_init.
Defined.

(** In [createArtifact] itself the reply always finds its bucket: the
    artifact replied to carries the details just constructed, so the only
    error thrown is the one for an unknown storage type. *)
Lemma createArtifact_throws ctx clk req st e :
  (createArtifact ctx clk req st).1 = Throw e →
  e = Error ("Unknown storageType: " +:+ req.(body).(Input.storageType)).
Proof.
  unfold createArtifact.
  destruct (_ <? _); [done|].
  destruct (tasks st !! _) as [task|]; [|done].
  destruct (runs_at _ _) as [run|]; [|done].
  destruct (negb (satisfies _ _)); [done|].
  destruct (_ <? _); [done|].
  destruct (negb (uploadAllowed _ _)); [done|].
  destruct (requestedDetails ctx req) as [d|] eqn:Hd.
  - destruct (artifacts st !! key req) as [a|] eqn:He.
    + destruct (storeArtifact_existing ctx clk req task run st d a Hd He)
        as [Hc Hn].
      destruct (decide (conflicting req d a)) as [H|H].
      * destruct (Hc H) as [(m & x & ->) _]. done.
      * destruct (Hn H) as [[b ->] _]. done.
    + destruct (storeArtifact_fresh ctx clk req task run st d Hd He)
        as [[b ->] _]. done.
  - unfold storeArtifact. unfold requestedDetails in Hd. rewrite Hd. simpl.
    by intros [= <-].
Qed.

(** C10: in the reply to a stored S3 artifact whose [details.bucket] is
    one of the two configured names, the bucket variable holds the wrapper
    of that name, the put-URL is asked from it, and the call of
    [createPutUrl] on [null] does not happen. *)
Theorem createPutUrl_bucket_defined ctx now requested artifact b :
  artifact.(Artifact.storageType) = "s3" →
  artifact.(Artifact.details) !! "bucket" = Some b →
  b = ctx.(publicBucket).(Bucket.bucket)
  ∨ b = ctx.(privateBucket).(Bucket.bucket) →
  (∃ w, selectBucket ctx artifact = Some w
        ∧ w.(Bucket.bucket) = b
        ∧ replyCreated ctx now requested artifact =
            Return (reply (PutReply "s3" artifact.(Artifact.contentType)
                             (now + minutes 30)
                             (w.(Bucket.createPutUrl)
                                (artifact.(Artifact.details) !! "prefix")
                                artifact.(Artifact.contentType)
                                (30 * 60 + 10)))))
  ∧ ∀ m, replyCreated ctx now requested artifact ≠ Throw (TypeError m).
Proof.
  intros Hs Hb Hor.
  destruct (selectBucket_configured ctx artifact b Hb Hor) as (w & Hw & Hn).
  assert (Hreply : replyCreated ctx now requested artifact =
            Return (reply (PutReply "s3" artifact.(Artifact.contentType)
                             (now + minutes 30)
                             (w.(Bucket.createPutUrl)
                                (artifact.(Artifact.details) !! "prefix")
                                artifact.(Artifact.contentType)
                                (30 * 60 + 10))))).
  { unfold replyCreated, minutes. rewrite Hs, Hw. simpl. done. }
  split.
  - by exists w.
  - intros m. by rewrite Hreply.
Qed.

(** The stored artifact of scenario 1 is answered by the public bucket. *)
Lemma createPutUrl_bucket_defined_witness :
  replyCreated Scenario.ctx 10000002 "s3" Scenario.publicLog
  = Return (reply (PutReply "s3" "text/plain" 11800002
                     "https://pub.s3.example/T1/0/public/log.txt?put")).
Proof.
  destruct (createPutUrl_bucket_defined Scenario.ctx 10000002 "s3"
              Scenario.publicLog "pub") as [(w & Hw & _ & Hr) _].
  - reflexivity.
  - vm_compute. reflexivity.
  - left. reflexivity.
  - rewrite Hr. vm_compute in Hw. injection Hw as <-. vm_compute. reflexivity.
Defined.

(** ** Properties of the URL helpers *)

Lemma append_nil (s : string) : "" +:+ s = s.
Proof. reflexivity. Qed.

Lemma append_cons (c : ascii) (a b : string) :
  String c a +:+ b = String c (a +:+ b).
Proof. reflexivity. Qed.

Lemma append_assoc (a b c : string) : (a +:+ b) +:+ c = a +:+ (b +:+ c).
Proof.
  induction a as [|x a IH]; [done|].
  by rewrite !append_cons, IH.
Qed.

Lemma escape_pathname_app a b :
  escape_pathname (a +:+ b) = escape_pathname a +:+ escape_pathname b.
Proof.
  induction a as [|c a IH]; [done|].
  rewrite append_cons. simpl. by rewrite IH, append_assoc.
Qed.

Lemma escape_pathname_safe s : pathSafe s = true → escape_pathname s = s.
Proof.
  induction s as [|c s IH]; simpl; [done|].
  intros [Hc Hs]%andb_prop. apply negb_true_iff in Hc.
  by rewrite Hc, IH.
Qed.

Lemma pathSafe_app a b : pathSafe (a +:+ b) = pathSafe a && pathSafe b.
Proof.
  induction a as [|c a IH]; [done|].
  rewrite append_cons. simpl. by rewrite IH, andb_assoc.
Qed.

(** Whatever [encodeURIComponent] writes for a byte has no [?] and no [#]. *)
Lemma encoded_byte_safe c :
  pathSafe (if uri_unreserved c then String c "" else percent_encode c) = true.
Proof. by destruct c as [[] [] [] [] [] [] [] []]; vm_compute. Qed.

Lemma encodeURIComponent_safe s : pathSafe (encodeURIComponent s) = true.
Proof.
  induction s as [|c s IH]; simpl; [done|].
  by rewrite pathSafe_app, encoded_byte_safe, IH.
Qed.

(** The cloud-mirror URL: for a host that is not empty and a region tag
    without [?] and [#], [url.format] writes the parts one after the
    other. *)
Lemma cloudMirrorUrl host region canonical :
  host ≠ "" → pathSafe region = true →
  urllib_format_https host
    (join "/" ["v1"; "redirect"; "s3"; region; encodeURIComponent canonical])
  = "https://" +:+ host +:+ "/v1/redirect/s3/" +:+ region +:+ "/" +:+
    encodeURIComponent canonical.
Proof.
  intros Hh Hr. unfold urllib_format_https, join.
  destruct (String.eqb_spec host ""); [done|].
  simpl. rewrite ?append_cons, ?append_nil. repeat f_equal.
  rewrite escape_pathname_app, (escape_pathname_safe region Hr). f_equal.
  apply (escape_pathname_safe (String "/" _)). simpl.
  apply encodeURIComponent_safe.
Qed.

(** ** Properties of the read end-points *)

(** A request for a public name, or one [req.satisfies] accepts, gets to
    [replyWithArtifact]. *)
Lemma getArtifact_mayGet ctx now req st :
  mayGet req = true →
  getArtifact ctx now req st =
    replyWithArtifact ctx now req.(params_taskId) req.(params_runId)
      req.(params_name) req st.
Proof.
  unfold mayGet, getArtifact. intros H.
  destruct (isPublicName _), (satisfies _ _); simpl in *; done.
Qed.

Lemma getLatestArtifact_mayGet ctx now req st :
  mayGet req = true →
  getLatestArtifact ctx now req st =
    match st.(tasks) !! req.(params_taskId) with
    | None =>
        (Return (reportError "ResourceNotFound" "Task not found" NoDetails), st)
    | Some task =>
        if decide (length task.(Task.runs) = 0%nat) then
          (Return (reportError "ResourceNotFound" "Task doesn't have any runs"
                     NoDetails), st)
        else replyWithArtifact ctx now req.(params_taskId)
               (Some (Z.of_nat (length task.(Task.runs)) - 1))
               req.(params_name) req st
    end.
Proof.
  unfold mayGet, getLatestArtifact. intros H.
  destruct (isPublicName _), (satisfies _ _); simpl in *; done.
Qed.

(** The answer to a stored S3 artifact: a redirect to the URL found, the
    assertion on it apart. *)
Lemma replyWithArtifact_s3 ctx now t r n req st artifact u :
  st.(artifacts) !! (t, r, n) = Some artifact →
  artifact.(Artifact.storageType) = "s3" →
  s3Url ctx req artifact = Some u → u ≠ "" →
  replyWithArtifact ctx now t r n req st = (Return (redirect 303 (Some u)), st).
Proof.
  intros Hl Hs Hu Hne. unfold replyWithArtifact.
  rewrite Hl, Hs, Hu. simpl.
  by destruct (String.eqb_spec u "").
Qed.

(** C4: the Location of a [getArtifact] request for an S3 artifact of the
    public bucket.  An unknown region or a skip-cache header gives the
    cloud-front URL; the artifact region gives the direct URL; any other
    region gives the cloud-mirror URL made by [url.format], which for a
    host that is not empty and a region tag without [?] and [#] reads
    [https://{cloudMirrorHost}/v1/redirect/s3/{region}/{encoded direct
    URL}].  The bucket's URLs are taken to be non-empty. *)
Theorem public_s3_location ctx now req st artifact :
  mayGet req = true →
  st.(artifacts) !! key req = Some artifact →
  artifact.(Artifact.storageType) = "s3" →
  artifact.(Artifact.details) !! "bucket"
    = Some ctx.(publicBucket).(Bucket.bucket) →
  (∀ p forceS3, ctx.(publicBucket).(Bucket.createGetUrl) p forceS3 ≠ "") →
  let region := ctx.(regionResolver) req in
  let prefix := artifact.(Artifact.details) !! "prefix" in
  let cloudFront := ctx.(publicBucket).(Bucket.createGetUrl) prefix false in
  let direct := ctx.(publicBucket).(Bucket.createGetUrl) prefix true in
  let location url :=
    getArtifact ctx now req st = (Return (redirect 303 (Some url)), st) in
  (truthy region = false ∨ skipCache req → location cloudFront)
  ∧ (truthy region = true → ¬ skipCache req →
     region = Some ctx.(artifactRegion) → location direct)
  ∧ (∀ r, region = Some r → r ≠ "" → ¬ skipCache req →
     r ≠ ctx.(artifactRegion) →
     ctx.(cloudMirrorHost) ≠ "" → pathSafe r = true →
     location ("https://" +:+ ctx.(cloudMirrorHost) +:+ "/v1/redirect/s3/" +:+
               r +:+ "/" +:+ encodeURIComponent direct)).
Proof.
  intros Hget Hl Hs Hb Hurl region prefix cloudFront direct location.
  subst location. cbv beta. rewrite (getArtifact_mayGet ctx now req st Hget).
  unfold key in Hl.
  assert (Hredirect : ∀ u, s3Url ctx req artifact = Some u → u ≠ "" →
            replyWithArtifact ctx now (params_taskId req) (params_runId req)
              (params_name req) req st = (Return (redirect 303 (Some u)), st)).
  { intros u. by apply replyWithArtifact_s3. }
  split; [|split].
  - intros Hcase. apply Hredirect; [|apply Hurl].
    unfold s3Url. rewrite Hb. rewrite decide_True by done.
    fold region prefix. destruct (truthy region) eqn:Ht; simpl; [|done].
    destruct Hcase as [?|Hskip]; [done|].
    unfold skipCache in Hskip. by rewrite decide_True.
  - intros Ht Hskip Hr. apply Hredirect; [|apply Hurl].
    unfold s3Url. rewrite Hb. rewrite decide_True by done.
    fold region prefix. rewrite Ht. simpl.
    unfold skipCache in Hskip. rewrite decide_False by done.
    by rewrite decide_True.
  - intros r Hr Hne Hskip Hother Hhost Hsafe.
    assert (Hu : s3Url ctx req artifact
                 = Some (urllib_format_https ctx.(cloudMirrorHost)
                           (join "/" ["v1"; "redirect"; "s3"; r;
                                      encodeURIComponent direct]))).
    { unfold s3Url. rewrite Hb. rewrite decide_True by done.
      fold region prefix. rewrite Hr. simpl.
      destruct (String.eqb_spec r ""); [done|]. simpl.
      unfold skipCache in Hskip. rewrite decide_False by done.
      rewrite decide_False; [done|]. intros [= Heq]. by apply Hother. }
    rewrite (cloudMirrorUrl _ _ _ Hhost Hsafe) in Hu.
    apply Hredirect; [exact Hu|]. done.
Qed.

(** Scenario 6: the stored public log, asked from the artifact region,
    from another region, from an unknown address, and with the skip-cache
    header. *)
Lemma public_s3_location_witness :
  let st := Scenario.state [Scenario.run "running" None]
              (Scenario.table Scenario.publicLog) in
  let file := "public/log.txt" in
  let from (region : string) := Scenario.get file {[ "x-region" := region ]} in
  let skipping := Scenario.get file
                    (<["x-taskcluster-skip-cache" := "True"]>
                       {[ "x-region" := "eu-central-1" ]}) in
  getArtifact Scenario.ctx 10000000 (from "us-west-2") st
    = (Return (redirect 303
         (Some "https://pub.s3.example/T1/0/public/log.txt")), st)
  ∧ getArtifact Scenario.ctx 10000000 (from "eu-central-1") st
    = (Return (redirect 303
         (Some ("https://mirror.example/v1/redirect/s3/eu-central-1/" +:+
                "https%3A%2F%2Fpub.s3.example%2FT1%2F0%2Fpublic%2Flog.txt"))),
       st)
  ∧ getArtifact Scenario.ctx 10000000 (Scenario.get file ∅) st
    = (Return (redirect 303
         (Some "https://cdn.example/T1/0/public/log.txt")), st)
  ∧ getArtifact Scenario.ctx 10000000 skipping st
    = (Return (redirect 303
         (Some "https://cdn.example/T1/0/public/log.txt")), st).
Proof.
  intros st file from skipping.
  assert (Hurl : ∀ p forceS3,
            Scenario.ctx.(publicBucket).(Bucket.createGetUrl) p forceS3 ≠ "").
  { intros p []; cbv; discriminate. }
  assert (H : ∀ req,
            req.(params_taskId) = "T1" → req.(params_runId) = Some 0 →
            req.(params_name) = file → req.(satisfies) = (fun _ => true) →
            _) by
    (intros req Ht Hr Hn Ha;
     refine (public_s3_location Scenario.ctx 10000000 req st
               Scenario.publicLog _ _ eq_refl eq_refl Hurl);
     [ unfold mayGet; rewrite Hn; reflexivity
     | unfold key; rewrite Ht, Hr, Hn; vm_compute; reflexivity ]).
  split; [|split; [|split]].
  - destruct (H (from "us-west-2") eq_refl eq_refl eq_refl eq_refl)
      as (_ & Hdirect & _).
    apply Hdirect.
    + reflexivity.
    + intros [Hs|Hs]; vm_compute in Hs; discriminate Hs.
    + reflexivity.
  - destruct (H (from "eu-central-1") eq_refl eq_refl eq_refl eq_refl)
      as (_ & _ & Hmirror).
    apply (Hmirror "eu-central-1").
    + reflexivity.
    + discriminate.
    + intros [Hs|Hs]; vm_compute in Hs; discriminate Hs.
    + vm_compute. discriminate.
    + vm_compute. discriminate.
    + reflexivity.
  - destruct (H (Scenario.get file ∅) eq_refl eq_refl eq_refl eq_refl)
      as (Hcdn & _).
    apply Hcdn. left. reflexivity.
  - destruct (H skipping eq_refl eq_refl eq_refl eq_refl) as (Hcdn & _).
    apply Hcdn. right. left. vm_compute. reflexivity.
Defined.

Lemma replyWithArtifact_error ctx now t r n req st artifact :
  st.(artifacts) !! (t, r, n) = Some artifact →
  artifact.(Artifact.storageType) = "error" →
  replyWithArtifact ctx now t r n req st =
    (Return (status_json 403 (artifact.(Artifact.details) !! "reason")
                             (artifact.(Artifact.details) !! "message")), st).
Proof.
  intros Hl Hs. unfold replyWithArtifact. by rewrite Hl, Hs.
Qed.

(** C5: a [getArtifact] or [getLatestArtifact] request that gets to a
    stored artifact of storage type [error] is answered with status 403 and
    the JSON body made of the stored [reason] and [message]; the answer is
    not a redirect, and the state is left as it was. *)
Theorem error_artifact_forbidden ctx now req st artifact :
  mayGet req = true →
  artifact.(Artifact.storageType) = "error" →
  let answer :=
    Return (status_json 403 (artifact.(Artifact.details) !! "reason")
                            (artifact.(Artifact.details) !! "message")) in
  (st.(artifacts) !! key req = Some artifact →
     getArtifact ctx now req st = (answer, st)
     ∧ ∀ code u, (getArtifact ctx now req st).1 ≠ Return (redirect code u))
  ∧ (∀ task,
     st.(tasks) !! req.(params_taskId) = Some task →
     task.(Task.runs) ≠ [] →
     st.(artifacts) !! (req.(params_taskId),
                        Some (Z.of_nat (length task.(Task.runs)) - 1),
                        req.(params_name)) = Some artifact →
     getLatestArtifact ctx now req st = (answer, st)
     ∧ ∀ code u,
         (getLatestArtifact ctx now req st).1 ≠ Return (redirect code u)).
Proof.
  intros Hget Hs answer. subst answer. split.
  - intros Hl. unfold key in Hl.
    rewrite (getArtifact_mayGet ctx now req st Hget).
    rewrite (replyWithArtifact_error _ _ _ _ _ _ _ _ Hl Hs). by split.
  - intros task Ht Hruns Hl.
    rewrite (getLatestArtifact_mayGet ctx now req st Hget), Ht.
    rewrite decide_False by (by destruct (Task.runs task)).
    rewrite (replyWithArtifact_error _ _ _ _ _ _ _ _ Hl Hs). by split.
Qed.

(** Scenario 7: the error artifact [{message: "m", reason: "r"}], asked by
    run and as the latest. *)
Lemma error_artifact_forbidden_witness :
  let failed := Scenario.stored "public/missing" "error"
                  (<["reason" := "r"]> (<["message" := "m"]> ∅)) 50000000 in
  let st := Scenario.state [Scenario.run "running" None]
              (Scenario.table failed) in
  let req := Scenario.get "public/missing" ∅ in
  getArtifact Scenario.ctx 10000000 req st
    = (Return (status_json 403 (Some "r") (Some "m")), st)
  ∧ getLatestArtifact Scenario.ctx 10000000 req st
    = (Return (status_json 403 (Some "r") (Some "m")), st).
Proof.
  intros failed st req.
  destruct (error_artifact_forbidden Scenario.ctx 10000000 req st failed
              eq_refl eq_refl) as [Hrun Hlatest].
  split.
  - apply Hrun. vm_compute. reflexivity.
  - apply (Hlatest (Scenario.task [Scenario.run "running" None])).
    + vm_compute. reflexivity.
    + discriminate.
    + vm_compute. reflexivity.
Defined.

(** The last run of a task that has runs is there. *)
Lemma runs_at_latest (rs : list Run) :
  rs ≠ [] → is_Some (runs_at rs (Some (Z.of_nat (length rs) - 1))).
Proof.
  intros Hr. assert (length rs ≠ 0%nat) by (by destruct rs).
  unfold runs_at.
  destruct (Z.leb_spec 0 (Z.of_nat (length rs) - 1)); [|lia].
  apply lookup_lt_is_Some. lia.
Qed.

(** C8: the two latest end-points answer [ResourceNotFound] for a task
    that does not exist and for a task without runs, and otherwise work on
    run [runs.length − 1]: [listLatestArtifacts] answers as [listArtifacts]
    does for that run, and [getLatestArtifact], once the name is public or
    authorized, replies with the artifact of that run. *)
Theorem latest_run_resolution ctx now req st :
  let taskId := req.(params_taskId) in
  let latest (task : Task.t) :=
    Some (Z.of_nat (length task.(Task.runs)) - 1) in
  ((st.(tasks) !! taskId = None →
      (listLatestArtifacts ctx req st).2 = st
      ∧ failedWith "ResourceNotFound" (listLatestArtifacts ctx req st).1)
   ∧ (∀ task, st.(tasks) !! taskId = Some task → task.(Task.runs) = [] →
      (listLatestArtifacts ctx req st).2 = st
      ∧ failedWith "ResourceNotFound" (listLatestArtifacts ctx req st).1)
   ∧ (∀ task, st.(tasks) !! taskId = Some task → task.(Task.runs) ≠ [] →
      listLatestArtifacts ctx req st
        = listArtifacts ctx (with_runId req (latest task)) st
      ∧ listLatestArtifacts ctx req st
        = (Return (reply (listResult
             (ctx.(Artifact_query) st.(artifacts) taskId (latest task)
                (or_null req.(query_continuationToken))
                (default 1000 req.(query_limit))))), st)))
  ∧ (mayGet req = true →
     (st.(tasks) !! taskId = None →
        (getLatestArtifact ctx now req st).2 = st
        ∧ failedWith "ResourceNotFound" (getLatestArtifact ctx now req st).1)
     ∧ (∀ task, st.(tasks) !! taskId = Some task → task.(Task.runs) = [] →
        (getLatestArtifact ctx now req st).2 = st
        ∧ failedWith "ResourceNotFound" (getLatestArtifact ctx now req st).1)
     ∧ (∀ task, st.(tasks) !! taskId = Some task → task.(Task.runs) ≠ [] →
        getLatestArtifact ctx now req st
          = replyWithArtifact ctx now taskId (latest task)
              req.(params_name) req st)).
Proof.
  intros taskId latest. subst taskId latest. cbv beta.
  split; [split; [|split]|].
  - intros Ht. unfold listLatestArtifacts, failedWith. rewrite Ht. simpl.
    split; [done|by eauto].
  - intros task Ht Hr. unfold listLatestArtifacts, failedWith.
    rewrite Ht, Hr. simpl. split; [done|by eauto].
  - intros task Ht Hr.
    assert (Hlen : length (Task.runs task) ≠ 0%nat)
      by (by destruct (Task.runs task)).
    assert (Hlatest : listLatestArtifacts ctx req st
        = (Return (reply (listResult
             (ctx.(Artifact_query) st.(artifacts) req.(params_taskId)
                (Some (Z.of_nat (length task.(Task.runs)) - 1))
                (or_null req.(query_continuationToken))
                (default 1000 req.(query_limit))))), st)).
    { unfold listLatestArtifacts. rewrite Ht. by rewrite decide_False. }
    split; [|exact Hlatest]. rewrite Hlatest.
    unfold listArtifacts, with_runId.
    cbn [params_taskId params_runId query_continuationToken query_limit].
    rewrite Ht.
    by destruct (runs_at_latest (Task.runs task) Hr) as [run ->].
  - intros Hget. rewrite (getLatestArtifact_mayGet ctx now req st Hget).
    unfold failedWith. split; [|split].
    + intros ->. simpl. split; [done|by eauto].
    + intros task -> ->. simpl. split; [done|by eauto].
    + intros task -> Hr.
      by rewrite decide_False by (by destruct (Task.runs task)).
Qed.

(** Scenario 8 and its neighbours: a task without runs, an unknown task,
    and a task with two runs, whose latest run is run 1. *)
Lemma latest_run_resolution_witness :
  let none := Scenario.state [] ∅ in
  let two := Scenario.state [Scenario.run "failed" (Some 9000000);
                             Scenario.run "running" None] ∅ in
  let req := Scenario.get "public/log.txt" ∅ in
  let other := Scenario.request "T2" None "public/log.txt"
                 (Scenario.input "" None 0) ∅ true in
  failedWith "ResourceNotFound"
    (getLatestArtifact Scenario.ctx 10000000 req none).1
  ∧ failedWith "ResourceNotFound"
      (listLatestArtifacts Scenario.ctx req none).1
  ∧ failedWith "ResourceNotFound"
      (getLatestArtifact Scenario.ctx 10000000 other two).1
  ∧ failedWith "ResourceNotFound"
      (listLatestArtifacts Scenario.ctx other two).1
  ∧ getLatestArtifact Scenario.ctx 10000000 req two
    = replyWithArtifact Scenario.ctx 10000000 "T1" (Some 1)
        "public/log.txt" req two
  ∧ listLatestArtifacts Scenario.ctx req two
    = listArtifacts Scenario.ctx (with_runId req (Some 1)) two.
Proof.
  intros none two req other.
  pose proof (latest_run_resolution Scenario.ctx 10000000 req none) as Hnone.
  pose proof (latest_run_resolution Scenario.ctx 10000000 other two) as Hother.
  pose proof (latest_run_resolution Scenario.ctx 10000000 req two) as Htwo.
  cbv zeta in Hnone, Hother, Htwo.
  destruct Hnone as [(_ & Hlist0 & _) Hget0].
  destruct (Hget0 eq_refl) as (_ & Hget0' & _).
  destruct Hother as [(Hlist1 & _) Hget1].
  destruct (Hget1 eq_refl) as (Hget1' & _).
  destruct Htwo as [(_ & _ & Hlist2) Hget2].
  destruct (Hget2 eq_refl) as (_ & _ & Hget2').
  split; [|split; [|split; [|split; [|split]]]].
  - apply (Hget0' (Scenario.task [])); vm_compute; reflexivity.
  - apply (Hlist0 (Scenario.task [])); vm_compute; reflexivity.
  - apply Hget1'. vm_compute. reflexivity.
  - apply Hlist1. vm_compute. reflexivity.
  - apply (Hget2' (Scenario.task [Scenario.run "failed" (Some 9000000);
                                  Scenario.run "running" None])).
    + vm_compute. reflexivity.
    + discriminate.
  - apply (Hlist2 (Scenario.task [Scenario.run "failed" (Some 9000000);
                                  Scenario.run "running" None])).
    + vm_compute. reflexivity.
    + discriminate.
Defined.

(** A stored artifact of a storage type that is none of the four makes
    [replyWithArtifact] throw: the name [artifacts] is not bound.  Nothing
    reaches the monitor. *)
Lemma replyWithArtifact_unknown ctx now t r n req st artifact :
  st.(artifacts) !! (t, r, n) = Some artifact →
  artifact.(Artifact.storageType) ≠ "s3" →
  artifact.(Artifact.storageType) ≠ "azure" →
  artifact.(Artifact.storageType) ≠ "reference" →
  artifact.(Artifact.storageType) ≠ "error" →
  replyWithArtifact ctx now t r n req st =
    (Throw (ReferenceError "artifacts is not defined"), st).
Proof.
  intros Hl H1 H2 H3 H4. unfold replyWithArtifact. rewrite Hl.
  by rewrite !decide_False.
Qed.

(** C9, the code at a failing input: with an artifact of storage type
    [blob] in the table, [getArtifact] and [getLatestArtifact] throw a
    [ReferenceError]; the monitor log stays empty and no response is
    written. *)
Theorem unknown_storageType_get_throws :
  let odd := Scenario.stored "public/odd" "blob" ∅ 50000000 in
  let st := Scenario.state [Scenario.run "running" None] (Scenario.table odd) in
  let req := Scenario.get "public/odd" ∅ in
  getArtifact Scenario.ctx 10000000 req st
    = (Throw (ReferenceError "artifacts is not defined"), st)
  ∧ getLatestArtifact Scenario.ctx 10000000 req st
    = (Throw (ReferenceError "artifacts is not defined"), st)
  ∧ st.(reported) = [].
Proof.
  intros odd st req.
  assert (Hreply : replyWithArtifact Scenario.ctx 10000000 "T1" (Some 0)
                     "public/odd" req st
                   = (Throw (ReferenceError "artifacts is not defined"), st)).
  { apply (replyWithArtifact_unknown _ _ _ _ _ _ _ odd);
      [vm_compute; reflexivity|discriminate..]. }
  split; [|split].
  - by rewrite getArtifact_mayGet.
  - rewrite getLatestArtifact_mayGet by done. exact Hreply.
  - reflexivity.
Qed.

(** ** Further properties of [createArtifact] *)

(** The two ways a call ends: it changes nothing and does not succeed, or
    it passes the validations, writes one record under its key (the fresh
    one, or the existing one modified), publishes its creation and
    replies. *)
Lemma createArtifact_cases ctx clk req st :
  let r := createArtifact ctx clk req st in
  (r.2 = st ∧ ¬ succeeded r.1)
  ∨ ∃ task run d a,
      preflight_ok clk req st task run
      ∧ requestedDetails ctx req = Some d
      ∧ match st.(artifacts) !! key req with
        | None => a = freshArtifact req d
        | Some e => ¬ conflicting req d e
                    ∧ a = modified e req.(body).(Input.expires) d
        end
      ∧ r = (replyCreated ctx clk.(t_reply) req.(body).(Input.storageType) a,
             publish (set_artifacts st (<[key req := a]> st.(artifacts)))
               (creationMessage task run req.(params_runId) a))
      ∧ succeeded r.1.
Proof.
  assert (Hno : ∀ k m d, ¬ succeeded (Return (reportError k m d))).
  { intros k m d [b Hb]. discriminate Hb. }
  assert (Hauth : ¬ succeeded (Return authRejected)).
  { intros [b Hb]. discriminate Hb. }
  unfold createArtifact.
  destruct (Z.ltb_spec (Input.expires (body req))
              (t_validate clk - 15 * 60 * 1000)) as [|Hpast];
    [left; split; [done|apply Hno]|].
  destruct (tasks st !! params_taskId req) as [task|] eqn:Ht;
    [|left; split; [done|apply Hno]].
  destruct (runs_at (Task.runs task) (params_runId req)) as [run|] eqn:Hr;
    [|left; split; [done|apply Hno]].
  destruct (satisfies req _) eqn:Ha; simpl; [|left; split; [done|apply Hauth]].
  destruct (Z.ltb_spec (Task.expires task) (Input.expires (body req)))
    as [|Hexp]; [left; split; [done|apply Hno]|].
  destruct (uploadAllowed (t_runcheck clk) run) eqn:Hu; simpl;
    [|left; split; [done|apply Hno]].
  assert (Hp : preflight_ok clk req st task run).
  { unfold preflight_ok, checked, createClaims, minutes. repeat split; done. }
  unfold storeArtifact.
  destruct (constructDetails ctx (params_taskId req) (params_runId req)
              (params_name req) (body req)) as [d|] eqn:Hd.
  - fold (key req).
    destruct (artifacts st !! key req) as [e|] eqn:He.
    + destruct (decide (Artifact.storageType e ≠ Input.storageType (body req)
                        ∨ Artifact.contentType e
                          ≠ or_else (Input.contentType (body req))
                              "application/json"
                        ∨ Artifact.expires e > Input.expires (body req)))
        as [H1|H1]; [left; split; [done|apply Hno]|].
      destruct (decide (Input.storageType (body req) ≠ "reference"
                        ∧ Artifact.details e ≠ d)) as [H2|H2];
        [left; split; [done|apply Hno]|].
      right. exists task, run, d, (modified e (Input.expires (body req)) d).
      assert (Hnc : ¬ conflicting req d e).
      { unfold conflicting, requestedContentType. tauto. }
      split; [done|]. split; [done|]. split; [done|].
      unfold publishAndReply. split; [done|]. simpl.
      eapply replyCreated_constructed; [exact Hd| |done].
      simpl. destruct (decide (Artifact.storageType e
                               = Input.storageType (body req))); [done|tauto].
    + right. exists task, run, d, (freshArtifact req d).
      split; [done|]. split; [done|]. split; [done|].
      unfold publishAndReply. split; [done|]. simpl.
      by eapply replyCreated_constructed.
  - left. split; [done|]. intros [b Hb]. discriminate Hb.
Qed.



(** X2: after a successful call the record under the key has the storage
    type, the content type (['application/json'] when the request gives
    none) and the expiration of the request, and the details constructed
    for it; its storage type is one of the four. *)
Theorem createArtifact_stores_request ctx clk req st :
  let r := createArtifact ctx clk req st in
  succeeded r.1 →
  ∃ a, r.2.(artifacts) !! key req = Some a
       ∧ a.(Artifact.storageType) = req.(body).(Input.storageType)
       ∧ a.(Artifact.contentType)
         = or_else req.(body).(Input.contentType) "application/json"
       ∧ a.(Artifact.expires) = req.(body).(Input.expires)
       ∧ requestedDetails ctx req = Some a.(Artifact.details)
       ∧ knownStorageType a.(Artifact.storageType).
Proof.
  intros r Hok. subst r.
  destruct (createArtifact_cases ctx clk req st)
    as [[_ Hno]|(task & run & d & a & Hp & Hd & Ha & Hr & _)]; [done|].
  exists a. rewrite Hr. simpl. split; [apply lookup_insert_eq|].
  assert (Hknown : knownStorageType (Input.storageType (body req))).
  { apply (constructDetails_storageType _ _ _ _ _ _ Hd). }
  destruct (artifacts st !! key req) as [e|].
  - destruct Ha as [Hnc ->]. simpl. unfold conflicting in Hnc.
    assert (Hs : Artifact.storageType e = Input.storageType (body req)).
    { destruct (decide (Artifact.storageType e
                        = Input.storageType (body req))); [done|tauto]. }
    assert (Hc : Artifact.contentType e = requestedContentType req).
    { destruct (decide (Artifact.contentType e = requestedContentType req));
        [done|tauto]. }
    rewrite Hs. by repeat split.
  - rewrite Ha. by repeat split.
Qed.

(** A request without content type is stored as ['application/json']. *)
Lemma createArtifact_stores_request_witness :
  let req := Scenario.request "T1" (Some 0) "public/result.json"
               (Scenario.input "s3" None 50000000) ∅ true in
  ∃ a, (createArtifact Scenario.ctx Scenario.clk req Scenario.running).2
         .(artifacts) !! key req = Some a
       ∧ a.(Artifact.storageType) = "s3"
       ∧ a.(Artifact.contentType) = "application/json"
       ∧ a.(Artifact.expires) = 50000000.
Proof.
  intros req.
  destruct (createArtifact_stores_request Scenario.ctx Scenario.clk req
              Scenario.running) as (a & Hl & Hs & Hc & He & _).
  - eexists. vm_compute. reflexivity.
  - exists a. by repeat split.
Defined.



(** X4: whatever the call, a record that was in the table is still there
    afterwards with the same key parts, storage type and content type, an
    expiration that is not earlier, and, unless it is a [reference], the
    same details; a record under another key than the request's is not
    touched at all. *)
Theorem createArtifact_keeps_records ctx clk req st k a :
  st.(artifacts) !! k = Some a →
  let tbl := (createArtifact ctx clk req st).2.(artifacts) in
  (k ≠ key req → tbl !! k = Some a)
  ∧ ∃ a', tbl !! k = Some a'
          ∧ a'.(Artifact.taskId) = a.(Artifact.taskId)
          ∧ a'.(Artifact.runId) = a.(Artifact.runId)
          ∧ a'.(Artifact.name) = a.(Artifact.name)
          ∧ a'.(Artifact.storageType) = a.(Artifact.storageType)
          ∧ a'.(Artifact.contentType) = a.(Artifact.contentType)
          ∧ a.(Artifact.expires) <= a'.(Artifact.expires)
          ∧ (a.(Artifact.storageType) ≠ "reference" →
             a'.(Artifact.details) = a.(Artifact.details)).
Proof.
  intros Hl tbl. subst tbl.
  destruct (createArtifact_cases ctx clk req st)
    as [[-> _]|(task & run & d & a1 & Hp & Hd & Ha & -> & _)].
  { split; [done|]. exists a. by repeat split. }
  simpl. split.
  { intros Hne. by rewrite lookup_insert_ne. }
  destruct (decide (key req = k)) as [<-|Hne].
  - rewrite Hl in Ha. destruct Ha as [Hnc ->].
    exists (modified a (Input.expires (body req)) d).
    rewrite lookup_insert_eq. simpl. unfold conflicting in Hnc.
    repeat split; try done.
    + lia.
    + intros Hnr.
      destruct (decide (Artifact.details a = d)) as [<-|]; [done|].
      destruct (decide (Artifact.storageType a
                        = Input.storageType (body req))) as [Heq|];
        [|tauto].
      rewrite Heq in Hnr. tauto.
  - exists a. rewrite lookup_insert_ne by done. by repeat split.
Qed.

(** The stored public log survives a request for another name and a
    conflicting request for its own. *)
Lemma createArtifact_keeps_records_witness :
  let st := Scenario.state [Scenario.run "running" None]
              (Scenario.table Scenario.publicLog) in
  let k := ("T1", Some 0, "public/log.txt") in
  (createArtifact Scenario.ctx Scenario.clk
     (Scenario.post "public/other.txt" "s3" 60000000) st).2.(artifacts) !! k
    = Some Scenario.publicLog
  ∧ ∃ a', (createArtifact Scenario.ctx Scenario.clk
             (Scenario.post "public/log.txt" "azure" 60000000) st).2
            .(artifacts) !! k = Some a'
          ∧ a'.(Artifact.storageType) = "s3".
Proof.
  intros st k. split.
  - apply (createArtifact_keeps_records Scenario.ctx Scenario.clk
             (Scenario.post "public/other.txt" "s3" 60000000) st k
             Scenario.publicLog).
    + vm_compute. reflexivity.
    + discriminate.
  - destruct (createArtifact_keeps_records Scenario.ctx Scenario.clk
                (Scenario.post "public/log.txt" "azure" 60000000) st k
                Scenario.publicLog) as [_ (a' & Hl & _ & _ & _ & Hs & _)].
    + vm_compute. reflexivity.
    + exists a'. by split.
Defined.

(** A record modified to the expiration and the details it has is the
    record itself. *)
Lemma modified_same (a : Artifact.t) :
  modified a a.(Artifact.expires) a.(Artifact.details) = a.
Proof. by destruct a. Qed.

(** X5: [createArtifact] is idempotent: repeating a successful call (same
    request, same readings of the clock) succeeds with the same reply,
    leaves the Artifact table as the first call left it, and publishes the
    same message once more. *)
Theorem createArtifact_idempotent ctx clk req st :
  let r1 := createArtifact ctx clk req st in
  let r2 := createArtifact ctx clk req r1.2 in
  succeeded r1.1 →
  r2.1 = r1.1
  ∧ r2.2.(artifacts) = r1.2.(artifacts)
  ∧ ∃ m, r1.2.(published) = (st.(published) ++ [m])%list
         ∧ r2.2.(published) = (st.(published) ++ [m; m])%list.
Proof.
  intros r1 r2 Hok. subst r1 r2.
  destruct (createArtifact_cases ctx clk req st)
    as [[_ Hno]|(task & run & d & a & Hp & Hd & Ha & Hr & _)]; [done|].
  rewrite Hr. simpl.
  set (st1 := publish (set_artifacts st (<[key req:=a]> (artifacts st)))
                (creationMessage task run (params_runId req) a)).
  assert (Hfields : Artifact.storageType a = Input.storageType (body req)
                    ∧ Artifact.contentType a = requestedContentType req
                    ∧ Artifact.expires a = Input.expires (body req)
                    ∧ Artifact.details a = d).
  { destruct (artifacts st !! key req) as [e|].
    - destruct Ha as [Hnc ->]. simpl. unfold conflicting in Hnc.
      destruct (decide (Artifact.storageType e
                        = Input.storageType (body req))); [|tauto].
      destruct (decide (Artifact.contentType e = requestedContentType req));
        [|tauto].
      done.
    - by subst a. }
  destruct Hfields as (Hs & Hc & He & Hdet).
  assert (Hl1 : artifacts st1 !! key req = Some a)
    by (simpl; apply lookup_insert_eq).
  assert (Hp1 : preflight_ok clk req st1 task run) by exact Hp.
  destruct (createArtifact_cases ctx clk req st1)
    as [[_ Hno]|(task' & run' & d' & a' & Hp' & Hd' & Ha' & Hr' & _)].
  - exfalso. apply Hno.
    rewrite (createArtifact_preflight_ok ctx _ _ _ _ _ Hp1).
    destruct (storeArtifact_existing ctx clk req task run st1 d a Hd Hl1)
      as [_ Hn].
    apply Hn. unfold conflicting. rewrite Hs, Hc, He, Hdet. intros H.
    destruct H as [?|[?|[?|[_ ?]]]]; [done|done|lia|done].
  - rewrite Hd in Hd'. injection Hd' as <-.
    rewrite Hl1 in Ha'. destruct Ha' as [_ ->].
    rewrite <- He, <- Hdet, modified_same in Hr'.
    destruct Hp as [(_ & Ht & Hrun & _) _].
    destruct Hp' as [(_ & Ht' & Hrun' & _) _].
    simpl in Ht'. rewrite Ht in Ht'. injection Ht' as <-.
    rewrite Hrun in Hrun'. injection Hrun' as <-.
    rewrite Hr'. simpl. split; [done|]. split.
    + by rewrite insert_insert_eq.
    + eexists. split; [done|]. by rewrite <- app_assoc.
Qed.

(** Scenario 1, asked twice. *)
Lemma createArtifact_idempotent_witness :
  let req := Scenario.post "public/log.txt" "s3" 50000000 in
  let r1 := createArtifact Scenario.ctx Scenario.clk req Scenario.running in
  let r2 := createArtifact Scenario.ctx Scenario.clk req r1.2 in
  r2.1 = r1.1 ∧ r2.2.(artifacts) = r1.2.(artifacts).
Proof.
  intros req r1 r2.
  destruct (createArtifact_idempotent Scenario.ctx Scenario.clk req
              Scenario.running) as (H1 & H2 & _).
  - eexists. vm_compute. reflexivity.
  - by split.
Defined.

(** The fields of the record a successful call writes. *)
Lemma written_record_fields (req : Request) (d : gmap string string)
    (a : Artifact.t) (tbl : gmap ArtifactKey Artifact.t) :
  match tbl !! key req with
  | None => a = freshArtifact req d
  | Some e => ¬ conflicting req d e
              ∧ a = modified e req.(body).(Input.expires) d
  end →
  a.(Artifact.storageType) = req.(body).(Input.storageType)
  ∧ a.(Artifact.contentType) = requestedContentType req
  ∧ a.(Artifact.expires) = req.(body).(Input.expires)
  ∧ a.(Artifact.details) = d.
Proof.
  destruct (tbl !! key req) as [e|].
  - intros [Hnc ->]. simpl. unfold conflicting in Hnc.
    destruct (decide (Artifact.storageType e
                      = Input.storageType (body req))); [|tauto].
    destruct (decide (Artifact.contentType e = requestedContentType req));
      [|tauto].
    done.
  - by intros ->.
Qed.





(** X7: the reply of a successful call, by storage type.  For [s3] and
    [azure] it carries the stored content type, an expiration 30 minutes
    after the last reading of the clock, and a URL for the object
    [taskId/runId/name]: a put-URL valid 30 minutes and 10 seconds, asked
    from the public bucket when the name is public and the two bucket names
    differ and from the private bucket otherwise, or a write SAS up to the
    expiration.  For [reference] and [error] it carries the storage type
    alone. *)
Theorem createArtifact_reply ctx clk req st :
  let r := createArtifact ctx clk req st in
  let storageType := req.(body).(Input.storageType) in
  let contentType := or_else req.(body).(Input.contentType) "application/json" in
  let expiry := clk.(t_reply) + minutes 30 in
  let object := req.(params_taskId) +:+ "/" +:+
                Number_toString req.(params_runId) +:+ "/" +:+
                req.(params_name) in
  let w := if isPublicName req.(params_name)
              && negb (bool_decide (ctx.(publicBucket).(Bucket.bucket)
                                    = ctx.(privateBucket).(Bucket.bucket)))
           then ctx.(publicBucket) else ctx.(privateBucket) in
  succeeded r.1 →
  (storageType = "s3" →
     r.1 = Return (reply (PutReply "s3" contentType expiry
                            (w.(Bucket.createPutUrl) (Some object) contentType
                               (30 * 60 + 10)))))
  ∧ (storageType = "azure" →
     r.1 = Return (reply (PutReply "azure" contentType expiry
                            (ctx.(blobStore).(BlobStore.generateWriteSAS)
                               (Some object) expiry))))
  ∧ (storageType = "reference" ∨ storageType = "error" →
     r.1 = Return (reply (TypeReply storageType))).
Proof.
  intros r storageType contentType expiry object w Hok.
  subst r storageType contentType expiry object w.
  destruct (createArtifact_cases ctx clk req st)
    as [[_ Hno]|(task & run & d & a & Hp & Hd & Ha & Hr & _)]; [done|].
  destruct (written_record_fields req d a _ Ha) as (Hs & Hc & He & Hdet).
  unfold requestedContentType in Hc. unfold requestedDetails in Hd.
  rewrite Hr. simpl. unfold replyCreated, minutes. rewrite Hs, Hc, Hdet.
  split; [|split].
  - intros H3. rewrite H3. simpl.
    unfold constructDetails in Hd. rewrite H3 in Hd. simpl in Hd.
    injection Hd as <-. unfold selectBucket. rewrite Hdet.
    rewrite lookup_insert_eq.
    rewrite lookup_insert_ne by done. rewrite lookup_insert_eq.
    destruct (isPublicName (params_name req)); simpl.
    + case_bool_decide as Heq.
      * simpl. rewrite Heq. by rewrite decide_True.
      * simpl. rewrite decide_False by congruence.
        by rewrite decide_True.
    + by rewrite decide_True.
  - intros H3. rewrite H3. simpl.
    unfold constructDetails in Hd. rewrite H3 in Hd. simpl in Hd.
    injection Hd as <-. by rewrite lookup_insert_eq.
  - intros [H3|H3]; rewrite H3; by simpl.
Qed.

(** Scenario 1 replies with a put-URL of the public bucket; the same
    request for a [reference] replies with the type alone. *)
Lemma createArtifact_reply_witness :
  (createArtifact Scenario.ctx Scenario.clk
     (Scenario.post "public/log.txt" "s3" 50000000) Scenario.running).1
  = Return (reply (PutReply "s3" "text/plain" 11800002
                     "https://pub.s3.example/T1/0/public/log.txt?put"))
  ∧ (createArtifact Scenario.ctx Scenario.clk
       (Scenario.post "link" "reference" 50000000) Scenario.running).1
    = Return (reply (TypeReply "reference")).
Proof.
  split.
  - pose proof (createArtifact_reply Scenario.ctx Scenario.clk
                  (Scenario.post "public/log.txt" "s3" 50000000)
                  Scenario.running) as H.
    cbv zeta in H. destruct H as (H & _).
    + eexists. vm_compute. reflexivity.
    + rewrite H by reflexivity. vm_compute. reflexivity.
  - pose proof (createArtifact_reply Scenario.ctx Scenario.clk
                  (Scenario.post "link" "reference" 50000000)
                  Scenario.running) as H.
    cbv zeta in H. destruct H as (_ & _ & H).
    + eexists. vm_compute. reflexivity.
    + rewrite H by (left; reflexivity). reflexivity.
Defined.

(** ** The Artifact table in reachable states *)

Lemma runs_at_index (rs : list Run) (runId : option Z) (run : Run) :
  runs_at rs runId = Some run →
  ∃ z, runId = Some z ∧ 0 <= z < Z.of_nat (length rs).
Proof.
  unfold runs_at. destruct runId as [z|]; [|done].
  destruct (Z.leb_spec 0 z) as [Hz|]; [|done].
  intros Hlt%lookup_lt_Some. exists z. split; [done|lia].
Qed.

Lemma createArtifact_tableInvariant ctx clk req st :
  tableInvariant ctx st.(artifacts) →
  tableInvariant ctx (createArtifact ctx clk req st).2.(artifacts).
Proof.
  intros Hinv.
  destruct (createArtifact_cases ctx clk req st)
    as [[-> _]|(task & run & d & a & Hp & Hd & Ha & -> & _)]; [done|].
  simpl. intros k a' Hl.
  destruct (decide (key req = k)) as [<-|Hne];
    [|rewrite lookup_insert_ne in Hl by done; by apply Hinv].
  rewrite lookup_insert_eq in Hl. injection Hl as <-.
  destruct (written_record_fields req d a _ Ha) as (Hs & _ & _ & Hdet).
  split; [|split].
  - destruct (artifacts st !! key req) as [e|] eqn:He.
    + destruct Ha as [_ ->]. simpl. by apply (Hinv _ _ He).
    + by subst a.
  - destruct Hp as [(_ & _ & Hrun & _) _].
    destruct (runs_at_index _ _ _ Hrun) as (z & Hz & Hb).
    exists z. split; [done|lia].
  - exists (body req). split; [done|]. by rewrite Hdet.
Qed.

Lemma reachable_tableInvariant ctx st :
  reachable ctx st → tableInvariant ctx st.(artifacts).
Proof.
  induction 1 as [st Hempty| | | | | |]; simpl.
  - rewrite Hempty. intros k a Hl. by rewrite lookup_empty in Hl.
  - done.
  - by apply createArtifact_tableInvariant.
  - by rewrite getArtifact_table.
  - by rewrite getLatestArtifact_table.
  - by rewrite listArtifacts_state.
  - by rewrite listLatestArtifacts_state.
Qed.

(** The details of a record of a table that has the invariant, by storage
    type. *)
Lemma tableInvariant_details (ctx : Context)
    (tbl : gmap ArtifactKey Artifact.t) (k : ArtifactKey) (a : Artifact.t) :
  tableInvariant ctx tbl →
  tbl !! k = Some a →
  let object := k.1.1 +:+ "/" +:+ Number_toString k.1.2 +:+ "/" +:+ k.2 in
  (a.(Artifact.taskId), a.(Artifact.runId), a.(Artifact.name)) = k
  ∧ (∃ z, a.(Artifact.runId) = Some z ∧ 0 <= z)
  ∧ knownStorageType a.(Artifact.storageType)
  ∧ (a.(Artifact.storageType) = "s3" →
     a.(Artifact.details) =
       <["prefix" := object]>
         (<["bucket" := if isPublicName k.2
                        then ctx.(publicBucket).(Bucket.bucket)
                        else ctx.(privateBucket).(Bucket.bucket)]> ∅))
  ∧ (a.(Artifact.storageType) = "azure" →
     a.(Artifact.details) =
       <["path" := object]>
         (<["container" := ctx.(blobStore).(BlobStore.container)]> ∅))
  ∧ (a.(Artifact.storageType) = "reference" →
     ∃ u, a.(Artifact.details) = <["url" := u]> ∅)
  ∧ (a.(Artifact.storageType) = "error" →
     ∃ m r, a.(Artifact.details) = <["reason" := r]> (<["message" := m]> ∅)).
Proof.
  intros Hinv Hl object. subst object.
  destruct (Hinv k a Hl) as (Hk & (z & Hz & Hz0) & input & Hs & Hd).
  split; [done|]. split.
  { exists z. split; [|done]. by rewrite <- Hz, <- Hk. }
  split.
  { rewrite <- Hs. apply (constructDetails_storageType _ _ _ _ _ _ Hd). }
  unfold constructDetails in Hd. rewrite Hs in Hd.
  repeat split; intros H; rewrite H in Hd; simpl in Hd;
    injection Hd as <-; eauto.
Qed.

(** X8: in every state reached from an empty Artifact table, each record
    sits under its own key, its run number is a natural number, its storage
    type is one of the four, and its details are the variant of that type:
    bucket and prefix, container and path, a url, or a message and a
    reason. *)
Theorem reachable_details_by_type ctx st k a :
  reachable ctx st →
  st.(artifacts) !! k = Some a →
  let object := k.1.1 +:+ "/" +:+ Number_toString k.1.2 +:+ "/" +:+ k.2 in
  (a.(Artifact.taskId), a.(Artifact.runId), a.(Artifact.name)) = k
  ∧ (∃ z, a.(Artifact.runId) = Some z ∧ 0 <= z)
  ∧ knownStorageType a.(Artifact.storageType)
  ∧ (a.(Artifact.storageType) = "s3" →
     a.(Artifact.details) =
       <["prefix" := object]>
         (<["bucket" := if isPublicName k.2
                        then ctx.(publicBucket).(Bucket.bucket)
                        else ctx.(privateBucket).(Bucket.bucket)]> ∅))
  ∧ (a.(Artifact.storageType) = "azure" →
     a.(Artifact.details) =
       <["path" := object]>
         (<["container" := ctx.(blobStore).(BlobStore.container)]> ∅))
  ∧ (a.(Artifact.storageType) = "reference" →
     ∃ u, a.(Artifact.details) = <["url" := u]> ∅)
  ∧ (a.(Artifact.storageType) = "error" →
     ∃ m r, a.(Artifact.details) = <["reason" := r]> (<["message" := m]> ∅)).
Proof.
  intros Hreach Hl.
  exact (tableInvariant_details ctx st.(artifacts) k a
           (reachable_tableInvariant ctx st Hreach) Hl).
Qed.

(** After scenario 1 the stored details are the bucket and the prefix. *)
Lemma reachable_details_by_type_witness :
  let req := Scenario.post "public/log.txt" "s3" 50000000 in
  let st := (createArtifact Scenario.ctx Scenario.clk req Scenario.running).2 in
  ∃ a, st.(artifacts) !! key req = Some a
       ∧ a.(Artifact.details)
         = <["prefix" := "T1/0/public/log.txt"]> (<["bucket" := "pub"]> ∅).
Proof.
  intros req st.
  assert (Hl : st.(artifacts) !! key req
               = Some (Scenario.stored "public/log.txt" "s3"
                         (<["prefix" := "T1/0/public/log.txt"]>
                            (<["bucket" := "pub"]> ∅)) 50000000))
    by (vm_compute; reflexivity).
  eexists. split; [exact Hl|].
  apply (reachable_details_by_type Scenario.ctx st (key req) _
           (reach_create Scenario.ctx Scenario.running Scenario.clk req
              (reach_init Scenario.ctx Scenario.running eq_refl)) Hl).
  reflexivity.
Defined.

(** ** Further properties of the read end-points *)

Lemma urllib_format_https_nonempty host pathname :
  urllib_format_https host pathname ≠ "".
Proof.
  unfold urllib_format_https. by destruct (String.eqb host "").
Qed.

(** With a bucket name that is one of the two configured ones, the URL of
    an S3 artifact is found and is not empty. *)
Lemma s3Url_defined ctx req artifact b :
  artifact.(Artifact.details) !! "bucket" = Some b →
  b = ctx.(publicBucket).(Bucket.bucket)
  ∨ b = ctx.(privateBucket).(Bucket.bucket) →
  urlsNonEmpty ctx →
  ∃ u, s3Url ctx req artifact = Some u ∧ u ≠ "".
Proof.
  intros Hb Hor Hne.
  destruct (Hne ctx.(publicBucket) (or_introl eq_refl)) as [Hget _].
  destruct (Hne ctx.(privateBucket) (or_intror eq_refl)) as [_ Hsigned].
  unfold s3Url. rewrite Hb.
  destruct (decide (Some b = Some (Bucket.bucket (publicBucket ctx)))).
  - destruct (negb (truthy _)); [by eauto|].
    repeat case_decide; eauto using urllib_format_https_nonempty.
  - rewrite decide_True; [by eauto|]. destruct Hor as [->| ->]; done.
Qed.

(** [replyWithArtifact] answers or throws; it never is the response of a
    rejected authorization. *)
Lemma replyWithArtifact_not_rejected ctx now t r n req st :
  (replyWithArtifact ctx now t r n req st).1 ≠ Return authRejected.
Proof.
  unfold replyWithArtifact.
  destruct (artifacts st !! _); [|done].
  repeat case_decide; simpl; try done.
  by destruct (truthy _).
Qed.

(** On a table that has the invariant, and with URL capabilities that
    return no empty string, [replyWithArtifact] does not throw and leaves
    the state as it was. *)
Lemma replyWithArtifact_invariant ctx now t r n req st :
  tableInvariant ctx st.(artifacts) → urlsNonEmpty ctx →
  ¬ threw (replyWithArtifact ctx now t r n req st).1
  ∧ (replyWithArtifact ctx now t r n req st).2 = st.
Proof.
  intros Hinv Hne. unfold replyWithArtifact.
  destruct (artifacts st !! (t, r, n)) as [a|] eqn:Hl.
  2: { split; [by intros [e He]|done]. }
  destruct (tableInvariant_details ctx _ _ _ Hinv Hl)
    as (_ & _ & Hknown & H3 & Haz & _).
  destruct (decide (Artifact.storageType a = "s3")) as [Hs|Hs3].
  { specialize (H3 Hs).
    destruct (s3Url_defined ctx req a
                (if isPublicName n then ctx.(publicBucket).(Bucket.bucket)
                 else ctx.(privateBucket).(Bucket.bucket)))
      as (u & -> & Hu); [| |done|].
    - rewrite H3. rewrite lookup_insert_ne by done.
      by rewrite lookup_insert_eq.
    - destruct (isPublicName n); auto.
    - simpl. destruct (String.eqb_spec u ""); [done|]. simpl.
      split; [by intros [e He]|done]. }
  destruct (decide (Artifact.storageType a = "azure")) as [Hs|Hsaz].
  { assert (Hc : Artifact.details a !! "container"
                 = Some (BlobStore.container (blobStore ctx))).
    { rewrite (Haz Hs). rewrite lookup_insert_ne by done.
      apply lookup_insert_eq. }
    rewrite decide_False by (intros Hn; by apply Hn).
    split; [by intros [e He]|done]. }
  destruct (decide (Artifact.storageType a = "reference")) as [Hs|Hsr];
    [split; [by intros [e He]|done]|].
  destruct (decide (Artifact.storageType a = "error")) as [Hs|Hse];
    [split; [by intros [e He]|done]|].
  destruct Hknown as [?|[?|[?|?]]]; done.
Qed.

(** X9: in a state reached from an empty Artifact table, with buckets whose
    URLs are never empty, neither getter throws (the assertion on the URL
    and the unbound name of the last branch are not met) and neither
    reports to the monitor: the state is left as it was. *)
Theorem reachable_get_safe ctx st now req :
  reachable ctx st → urlsNonEmpty ctx →
  (¬ threw (getArtifact ctx now req st).1
   ∧ (getArtifact ctx now req st).2 = st)
  ∧ (¬ threw (getLatestArtifact ctx now req st).1
     ∧ (getLatestArtifact ctx now req st).2 = st).
Proof.
  intros Hreach Hne.
  pose proof (reachable_tableInvariant ctx st Hreach) as Hinv.
  split.
  - unfold getArtifact. destruct (_ && _).
    + split; [by intros [e He]|done].
    + by apply replyWithArtifact_invariant.
  - unfold getLatestArtifact. destruct (_ && _).
    + split; [by intros [e He]|done].
    + destruct (tasks st !! _); [|split; [by intros [e He]|done]].
      case_decide; [split; [by intros [e He]|done]|].
      by apply replyWithArtifact_invariant.
Qed.

Lemma scenario_urlsNonEmpty : urlsNonEmpty Scenario.ctx.
Proof.
  intros b [-> | ->]; split; intros p x; try destruct x; cbv; discriminate.
Qed.

(** After scenario 1, a get of the log leaves the state as it is. *)
Lemma reachable_get_safe_witness :
  let st := (createArtifact Scenario.ctx Scenario.clk
               (Scenario.post "public/log.txt" "s3" 50000000)
               Scenario.running).2 in
  (getArtifact Scenario.ctx 10000000 (Scenario.get "public/log.txt" ∅) st).2
  = st.
Proof.
  intros st.
  apply (reachable_get_safe Scenario.ctx st 10000000
           (Scenario.get "public/log.txt" ∅)).
  - apply reach_create. by apply reach_init.
  - exact scenario_urlsNonEmpty.
Defined.

(** The record under the key after a successful [createArtifact]. *)
Lemma createArtifact_written ctx clk req st :
  succeeded (createArtifact ctx clk req st).1 →
  ∃ a, (createArtifact ctx clk req st).2.(artifacts) !! key req = Some a
       ∧ a.(Artifact.storageType) = req.(body).(Input.storageType)
       ∧ constructDetails ctx req.(params_taskId) req.(params_runId)
           req.(params_name) req.(body) = Some a.(Artifact.details).
Proof.
  intros Hok.
  destruct (createArtifact_cases ctx clk req st)
    as [[_ Hno]|(task & run & d & a & Hp & Hd & Ha & Hr & _)]; [done|].
  destruct (written_record_fields req d a _ Ha) as (Hs & _ & _ & Hdet).
  exists a. rewrite Hr. simpl. split; [apply lookup_insert_eq|].
  split; [done|]. by rewrite Hdet.
Qed.

(** X10: what was created is what is served, for the storage types that
    are metadata only.  After a successful [createArtifact] for a
    [reference], a get of the same key redirects (303) to the url of the
    request, also when the call replaced an older url; after one for an
    [error], it answers 403 with the reason and the message of the
    request. *)
Theorem create_then_get_metadata ctx clk now req greq st :
  let r := createArtifact ctx clk req st in
  succeeded r.1 →
  key greq = key req →
  mayGet greq = true →
  (req.(body).(Input.storageType) = "reference" →
     getArtifact ctx now greq r.2
     = (Return (redirect 303 (Some req.(body).(Input.url))), r.2))
  ∧ (req.(body).(Input.storageType) = "error" →
     getArtifact ctx now greq r.2
     = (Return (status_json 403 (Some req.(body).(Input.reason))
                  (Some req.(body).(Input.message))), r.2)).
Proof.
  intros r Hok Hkey Hget. subst r.
  destruct (createArtifact_written ctx clk req st Hok) as (a & Hl & Hs & Hd).
  rewrite (getArtifact_mayGet ctx now greq _ Hget).
  unfold key in Hkey, Hl. injection Hkey as -> -> ->.
  unfold replyWithArtifact. rewrite Hl, Hs.
  unfold constructDetails in Hd.
  split; intros H3; rewrite H3 in *; simpl in *; injection Hd as <-.
  - by rewrite lookup_insert_eq.
  - rewrite lookup_insert_eq. rewrite lookup_insert_ne by done.
    by rewrite lookup_insert_eq.
Qed.

(** Scenario 7, and a reference whose url is replaced. *)
Lemma create_then_get_metadata_witness :
  let failed := Scenario.post "public/missing" "error" 50000000 in
  let link := Scenario.stored "public/link" "reference"
                (<["url" := "https://old.example/a"]> ∅) 50000000 in
  let st := Scenario.state [Scenario.run "running" None] (Scenario.table link) in
  let relink := Scenario.post "public/link" "reference" 60000000 in
  getArtifact Scenario.ctx 10000000 (Scenario.get "public/missing" ∅)
    (createArtifact Scenario.ctx Scenario.clk failed Scenario.running).2
  = (Return (status_json 403 (Some "r") (Some "m")),
     (createArtifact Scenario.ctx Scenario.clk failed Scenario.running).2)
  ∧ getArtifact Scenario.ctx 10000000 (Scenario.get "public/link" ∅)
      (createArtifact Scenario.ctx Scenario.clk relink st).2
    = (Return (redirect 303 (Some "https://elsewhere.example/a")),
       (createArtifact Scenario.ctx Scenario.clk relink st).2).
Proof.
  intros failed link st relink. split.
  - pose proof (create_then_get_metadata Scenario.ctx Scenario.clk 10000000
                  failed (Scenario.get "public/missing" ∅) Scenario.running)
      as H.
    cbv zeta in H.
    destruct H as [_ H];
      [eexists; vm_compute; reflexivity | reflexivity | reflexivity |].
    exact (H eq_refl).
  - pose proof (create_then_get_metadata Scenario.ctx Scenario.clk 10000000
                  relink (Scenario.get "public/link" ∅) st) as H.
    cbv zeta in H.
    destruct H as [H _];
      [eexists; vm_compute; reflexivity | reflexivity | reflexivity |].
    exact (H eq_refl).
Defined.



(** X12: a get of a stored [s3] artifact whose bucket is the private one
    (and not also the public one) redirects (303) to a get-URL of the
    private bucket signed for 30 minutes, whatever the region and the
    headers of the request; a bucket that is neither of the two configured
    ones fails the assertion on the URL instead of redirecting.  The state
    is left as it was. *)
Theorem private_s3_get ctx now req st artifact :
  mayGet req = true →
  st.(artifacts) !! key req = Some artifact →
  artifact.(Artifact.storageType) = "s3" →
  let bucket := artifact.(Artifact.details) !! "bucket" in
  let signed := ctx.(privateBucket).(Bucket.createSignedGetUrl)
                  (artifact.(Artifact.details) !! "prefix") (30 * 60) in
  (bucket = Some ctx.(privateBucket).(Bucket.bucket) →
   ctx.(privateBucket).(Bucket.bucket) ≠ ctx.(publicBucket).(Bucket.bucket) →
   signed ≠ "" →
   getArtifact ctx now req st = (Return (redirect 303 (Some signed)), st))
  ∧ (bucket ≠ Some ctx.(publicBucket).(Bucket.bucket) →
     bucket ≠ Some ctx.(privateBucket).(Bucket.bucket) →
     getArtifact ctx now req st
     = (Throw (AssertionError "Url should have been constructed!"), st)).
Proof.
  intros Hget Hl Hs bucket signed. subst bucket signed.
  rewrite (getArtifact_mayGet ctx now req st Hget).
  unfold key in Hl. split.
  - intros Hb Hdiff Hne.
    apply (replyWithArtifact_s3 _ _ _ _ _ _ _ _ _ Hl Hs); [|done].
    unfold s3Url. rewrite Hb.
    rewrite decide_False by congruence. by rewrite decide_True.
  - intros Hpub Hpriv. unfold replyWithArtifact. rewrite Hl, Hs. simpl.
    unfold s3Url. by rewrite !decide_False.
Qed.

Lemma private_s3_get_witness :
  let secret := Scenario.stored "private/build.log" "s3"
                  (<["prefix" := "T1/0/private/build.log"]>
                     (<["bucket" := "priv"]> ∅)) 50000000 in
  let lost := Scenario.stored "private/lost.log" "s3"
                (<["prefix" := "T1/0/private/lost.log"]>
                   (<["bucket" := "retired"]> ∅)) 50000000 in
  let st (a : Artifact.t) :=
    Scenario.state [Scenario.run "running" None] (Scenario.table a) in
  getArtifact Scenario.ctx 10000000
    (Scenario.get "private/build.log" {[ "x-region" := "eu-central-1" ]})
    (st secret)
  = (Return (redirect 303
       (Some "https://priv.s3.example/T1/0/private/build.log?sig")),
     st secret)
  ∧ getArtifact Scenario.ctx 10000000 (Scenario.get "private/lost.log" ∅)
      (st lost)
    = (Throw (AssertionError "Url should have been constructed!"), st lost).
Proof.
  intros secret lost st. split.
  - pose proof (private_s3_get Scenario.ctx 10000000
                  (Scenario.get "private/build.log"
                     {[ "x-region" := "eu-central-1" ]})
                  (st secret) secret eq_refl eq_refl eq_refl) as H.
    cbv zeta in H. destruct H as [H _].
    apply H; [reflexivity | discriminate | discriminate].
  - pose proof (private_s3_get Scenario.ctx 10000000
                  (Scenario.get "private/lost.log" ∅)
                  (st lost) lost eq_refl eq_refl eq_refl) as H.
    cbv zeta in H. destruct H as [_ H].
    apply H; discriminate.
Defined.



(** X14: a getter answers with the rejection of [req.satisfies] exactly
    when the name does not begin with [public/] and [req.satisfies({name})]
    is false; the rejection comes before any look at the tables and leaves
    the state as it was.  A public name is never rejected, whatever
    [req.satisfies] says. *)
Theorem get_rejected_iff ctx now req st :
  let rejected := isPublicName req.(params_name) = false
                  ∧ req.(satisfies) (GetParams req.(params_name)) = false in
  ((getArtifact ctx now req st).1 = Return authRejected ↔ rejected)
  ∧ ((getLatestArtifact ctx now req st).1 = Return authRejected ↔ rejected)
  ∧ (rejected →
     getArtifact ctx now req st = (Return authRejected, st)
     ∧ getLatestArtifact ctx now req st = (Return authRejected, st)).
Proof.
  intros rejected. subst rejected.
  assert (Hrej : isPublicName (params_name req) = false
                 ∧ satisfies req (GetParams (params_name req)) = false →
                 getArtifact ctx now req st = (Return authRejected, st)
                 ∧ getLatestArtifact ctx now req st
                   = (Return authRejected, st)).
  { intros [Hp Ha]. unfold getArtifact, getLatestArtifact.
    by rewrite Hp, Ha. }
  split; [|split; [|exact Hrej]].
  - split; [|intros H; by rewrite (proj1 (Hrej H))].
    destruct (mayGet req) eqn:Hget.
    + rewrite (getArtifact_mayGet ctx now req st Hget). intros H.
      by apply replyWithArtifact_not_rejected in H.
    + intros _. unfold mayGet in Hget. by apply orb_false_elim in Hget.
  - split; [|intros H; by rewrite (proj2 (Hrej H))].
    destruct (mayGet req) eqn:Hget.
    + rewrite (getLatestArtifact_mayGet ctx now req st Hget).
      destruct (tasks st !! _); [|done].
      case_decide as Hlen; [done|]. intros Hr.
      by apply replyWithArtifact_not_rejected in Hr.
    + intros _. unfold mayGet in Hget. by apply orb_false_elim in Hget.
Qed.

(** The stored private log is not shown to a caller without the scope, and
    the public log is. *)
Lemma get_rejected_iff_witness :
  let secret := Scenario.stored "private/build.log" "s3"
                  (<["prefix" := "T1/0/private/build.log"]>
                     (<["bucket" := "priv"]> ∅)) 50000000 in
  let st := Scenario.state [Scenario.run "running" None]
              (Scenario.table secret) in
  let anonymous (n : string) :=
    Scenario.request "T1" (Some 0) n (Scenario.input "" None 0) ∅ false in
  getArtifact Scenario.ctx 10000000 (anonymous "private/build.log") st
  = (Return authRejected, st)
  ∧ (getArtifact Scenario.ctx 10000000 (anonymous "public/log.txt") st).1
    ≠ Return authRejected.
Proof.
  intros secret st anonymous. split.
  - apply (get_rejected_iff Scenario.ctx 10000000
             (anonymous "private/build.log") st).
    by split.
  - intros H.
    apply (get_rejected_iff Scenario.ctx 10000000
             (anonymous "public/log.txt") st) in H.
    destruct H as [H _]. discriminate H.
Defined.

(** X15: a get that passes the name check, of a key without record, answers
    [ResourceNotFound], "Artifact not found", and leaves the state as it
    was.  For [getLatestArtifact] the key is that of the last run alone: an
    artifact of an earlier run is not served in its place. *)
Theorem missing_artifact_not_found ctx now req st :
  mayGet req = true →
  let notFound :=
    Return (reportError "ResourceNotFound" "Artifact not found" NoDetails) in
  (st.(artifacts) !! key req = None →
     getArtifact ctx now req st = (notFound, st))
  ∧ (∀ task,
     st.(tasks) !! req.(params_taskId) = Some task →
     task.(Task.runs) ≠ [] →
     st.(artifacts) !! (req.(params_taskId),
                        Some (Z.of_nat (length task.(Task.runs)) - 1),
                        req.(params_name)) = None →
     getLatestArtifact ctx now req st = (notFound, st)).
Proof.
  intros Hget notFound. subst notFound. split.
  - intros Hl. unfold key in Hl.
    rewrite (getArtifact_mayGet ctx now req st Hget).
    unfold replyWithArtifact. by rewrite Hl.
  - intros task Ht Hruns Hl.
    rewrite (getLatestArtifact_mayGet ctx now req st Hget), Ht.
    rewrite decide_False by (by destruct (Task.runs task)).
    unfold replyWithArtifact. by rewrite Hl.
Qed.

(** The public log of run 0 is not the latest artifact of a task that has
    a run 1. *)
Lemma missing_artifact_not_found_witness :
  let st := Scenario.state [Scenario.run "failed" (Some 9000000);
                            Scenario.run "running" None]
              (Scenario.table Scenario.publicLog) in
  let req := Scenario.get "public/log.txt" ∅ in
  (getArtifact Scenario.ctx 10000000 req st).1
  = Return (redirect 303 (Some "https://cdn.example/T1/0/public/log.txt"))
  ∧ getLatestArtifact Scenario.ctx 10000000 req st
    = (Return (reportError "ResourceNotFound" "Artifact not found" NoDetails),
       st).
Proof.
  intros st req. split; [vm_compute; reflexivity|].
  pose proof (missing_artifact_not_found Scenario.ctx 10000000 req st
                eq_refl) as H.
  cbv zeta in H. destruct H as [_ H].
  apply (H (Scenario.task [Scenario.run "failed" (Some 9000000);
                           Scenario.run "running" None])).
  - vm_compute. reflexivity.
  - discriminate.
  - vm_compute. reflexivity.
Defined.




(** X17: the four read end-points write nothing: the list handlers leave
    the whole state as it was, and the getters leave the Task table, the
    Artifact table and the publisher log as they were and hand the monitor
    at most one report. *)
Theorem readers_write_nothing ctx now req st :
  (listArtifacts ctx req st).2 = st
  ∧ (listLatestArtifacts ctx req st).2 = st
  ∧ ∀ s', s' = (getArtifact ctx now req st).2
          ∨ s' = (getLatestArtifact ctx now req st).2 →
      s'.(tasks) = st.(tasks)
      ∧ s'.(artifacts) = st.(artifacts)
      ∧ s'.(published) = st.(published)
      ∧ (s'.(reported) = st.(reported)
         ∨ ∃ m, s'.(reported) = (st.(reported) ++ [m])%list).
Proof.
  split; [apply listArtifacts_state|].
  split; [apply listLatestArtifacts_state|].
  assert (Hreply : ∀ t r n,
            let s' := (replyWithArtifact ctx now t r n req st).2 in
            s'.(tasks) = st.(tasks)
            ∧ s'.(artifacts) = st.(artifacts)
            ∧ s'.(published) = st.(published)
            ∧ (s'.(reported) = st.(reported)
               ∨ ∃ m, s'.(reported) = (st.(reported) ++ [m])%list)).
  { intros t r n. unfold replyWithArtifact.
    destruct (artifacts st !! _); [|by auto].
    repeat case_decide; simpl; try (by auto); try (by eauto 10).
    destruct (truthy _); by auto. }
  intros s' [-> | ->].
  - unfold getArtifact. destruct (_ && _); [by auto|]. apply Hreply.
  - unfold getLatestArtifact. destruct (_ && _); [by auto|].
    destruct (tasks st !! _); [|by auto].
    case_decide; [by auto|]. apply Hreply.
Qed.

(** The state after two gets of an artifact of a foreign container holds
    one report for each, and nothing else has changed. *)
Lemma readers_write_nothing_witness :
  let foreign := Scenario.stored "public/live.log" "azure"
                   (<["path" := "T1/0/public/live.log"]>
                      (<["container" := "elsewhere"]> ∅)) 50000000 in
  let st := Scenario.state [Scenario.run "running" None]
              (Scenario.table foreign) in
  let s' := (getArtifact Scenario.ctx 10000000
               (Scenario.get "public/live.log" ∅) st).2 in
  s'.(artifacts) = st.(artifacts) ∧ s'.(published) = st.(published).
Proof.
  intros foreign st s'.
  destruct (readers_write_nothing Scenario.ctx 10000000
              (Scenario.get "public/live.log" ∅) st) as (_ & _ & H).
  destruct (H s' (or_introl eq_refl)) as (_ & Ha & Hp & _).
  by split.
Defined.

(** ** When [createArtifact] succeeds *)




